(** * Lazy account provisioning: the account endpoint and the client context

    A shallow embedding of

    - [server/pages/api/account.ts]: [generateApiKey], [runMiddleware],
      [handler], [getAppStateForUser], [getAppStateFromDb];
    - [server/components/AppContext.tsx]: [initState], [setApikey],
      [setCredits], [setStats], [refreshApikey].

    JavaScript values are a small JSON-like inductive type, the [await]ed
    calls of the endpoint run in a state-and-exception monad over a "world"
    (the store, the position in the entropy source, the log of store
    calls), and the store client is an interface with two instances:
    [Supabase.client], which follows what the PostgREST client does for the
    three queries the code issues, and [Joined.client], which answers the
    read in the shape the code checks for.  [console.error] calls have no
    effect on control flow or on the store and are left out. *)

From Stdlib Require Import Strings.Byte Strings.Ascii Strings.String.
From stdpp Require Import gmap strings list.

Set Warnings "-register-all".

Open Scope string_scope.
Open Scope list_scope.

(** ** JavaScript values *)

(** JSON numbers are restricted to integers: the only numbers the code
    touches are balances in minor currency units. *)
Inductive JsValue : Type :=
  | JUndefined
  | JNull
  | JBool (b : bool)
  | JNum (n : Z)
  | JStr (s : string)
  | JArr (items : list JsValue)
  | JObj (fields : list (string * JsValue)).

Inductive Exn : Type :=
  | Error (msg : string)
  | TypeError (msg : string)
  | RangeError (msg : string).

(** What an [await]ed computation does: it returns, it throws, or its
    promise is never settled. *)
Inductive Outcome (A : Type) : Type :=
  | Returned (a : A)
  | Threw (e : Exn)
  | Pending.
Arguments Returned {A} a.
Arguments Threw {A} e.
Arguments Pending {A}.

Module Js.

(** [!!v] *)
Definition truthy (v : JsValue) : bool :=
  match v with
  | JUndefined | JNull => false
  | JBool b => b
  | JNum n => negb (n =? 0)%Z
  | JStr s => negb (String.eqb s "")
  | JArr _ | JObj _ => true
  end.

(** [Array.isArray(v)] *)
Definition isArray (v : JsValue) : bool :=
  match v with JArr _ => true | _ => false end.

Fixpoint assoc (k : string) (fields : list (string * JsValue)) : JsValue :=
  match fields with
  | [] => JUndefined
  | (k', v) :: rest => if String.eqb k k' then v else assoc k rest
  end.

(** [v.k] for a key [k] that is neither an index nor a built-in property
    (the code reads [apikey], [credits] and [total_credits_cents]):
    reading a property of [undefined] or [null] throws; an array or a
    primitive has no such property. *)
Definition get (v : JsValue) (k : string) : Outcome JsValue :=
  match v with
  | JUndefined => Threw (TypeError "Cannot read properties of undefined")
  | JNull => Threw (TypeError "Cannot read properties of null")
  | JObj fields => Returned (assoc k fields)
  | JBool _ | JNum _ | JStr _ | JArr _ => Returned JUndefined
  end.

(** [items[0]] on an array *)
Definition first (items : list JsValue) : JsValue :=
  match items with
  | [] => JUndefined
  | x :: _ => x
  end.

End Js.

(** ** Hexadecimal encoding: [Buffer.toString("hex")] *)

Module Hex.

Definition digit (n : N) : ascii :=
  match n with
  | 0 => "0" | 1 => "1" | 2 => "2" | 3 => "3" | 4 => "4" | 5 => "5"
  | 6 => "6" | 7 => "7" | 8 => "8" | 9 => "9" | 10 => "a" | 11 => "b"
  | 12 => "c" | 13 => "d" | 14 => "e" | _ => "f"
  end%N%char.

Definition value (c : ascii) : option N :=
  let n := N_of_ascii c in
  if ((48 <=? n) && (n <=? 57))%N then Some (n - 48)%N
  else if ((97 <=? n) && (n <=? 102))%N then Some (n - 87)%N
  else None.

(** A character of the lowercase hexadecimal alphabet [0-9a-f]. *)
Definition is_lower_hex (c : ascii) : bool :=
  match value c with Some _ => true | None => false end.

Fixpoint encode (bytes : list byte) : string :=
  match bytes with
  | [] => ""
  | b :: rest =>
      let n := Byte.to_N b in
      String (digit (n / 16)) (String (digit (n mod 16)) (encode rest))
  end.

Fixpoint decode (s : string) : option (list byte) :=
  match s with
  | "" => Some []
  | String hi (String lo rest) =>
      match value hi, value lo, decode rest with
      | Some h, Some l, Some bs =>
          match Byte.of_N (16 * h + l) with
          | Some b => Some (b :: bs)
          | None => None
          end
      | _, _, _ => None
      end
  | String _ "" => None
  end.

Fixpoint all_chars (p : ascii -> bool) (s : string) : bool :=
  match s with
  | "" => true
  | String c rest => p c && all_chars p rest
  end.

End Hex.

(** ** Rows, queries and the store client *)

(** [user] as the identity provider hands it over: [user.id], [user.email]. *)
Record User : Type := { user_id : string; user_email : option string }.

Record Session : Type := { session_user : string }.

(** A row of [accounts]: [{ id, apikey, name }]. *)
Record AccountRow : Type :=
  { acc_id : string; acc_apikey : string; acc_name : option string }.

(** A row of [credits]: [{ id, total_credits_cents }]. *)
Record CreditRow : Type := { cr_id : string; cr_total_credits_cents : Z }.

Record PgError : Type := { pg_code : string }.

(** [{ data, error }] *)
Record QueryResult : Type := { qr_data : JsValue; qr_error : option PgError }.

(** [{ onConflict, ignoreDuplicates }] *)
Record UpsertOptions : Type := { onConflict : string; ignoreDuplicates : bool }.

(** The three queries [supabaseAdminClient] is asked to run.  The client is
    not part of the endpoint's code; the orchestration is written against
    this interface and [Supabase.client] below is the instance that follows
    the PostgREST client. *)
Record StoreClient (Store : Type) : Type :=
  { (** [.from("accounts").select("apikey").eq("id", id).single()] *)
    accounts_select_apikey_single : Store -> string -> QueryResult;
    (** [.from("accounts").insert([row]).select()], of which only [error]
        is used *)
    accounts_insert : Store -> AccountRow -> Store * option PgError;
    (** [.from("credits").upsert(row, options)] *)
    credits_upsert : Store -> CreditRow -> UpsertOptions -> Store * option PgError }.
Arguments accounts_select_apikey_single {Store} _ _ _.
Arguments accounts_insert {Store} _ _ _.
Arguments credits_upsert {Store} _ _ _ _.

(** The store calls a request makes, oldest first. *)
Inductive Event : Type :=
  | EvSelect (id : string)
  | EvInsert (row : AccountRow)
  | EvUpsert (row : CreditRow).

Definition is_write (ev : Event) : bool :=
  match ev with
  | EvSelect _ => false
  | EvInsert _ | EvUpsert _ => true
  end.

(** ** The world and the monad of [async] code *)

Record World (Store : Type) : Type := mkWorld
  { w_db : Store;
    (** the secure random source, as the sequence of bytes it will supply *)
    w_entropy : nat -> byte;
    (** how many of them have been drawn *)
    w_cursor : nat;
    w_log : list Event }.
Arguments mkWorld {Store} _ _ _ _.
Arguments w_db {Store} _.
Arguments w_entropy {Store} _.
Arguments w_cursor {Store} _.
Arguments w_log {Store} _.

Definition M (Store A : Type) : Type := World Store -> Outcome A * World Store.

Section Monad.
Context {Store : Type}.

Definition ret {A} (a : A) : M Store A := fun w => (Returned a, w).

Definition throw {A} (e : Exn) : M Store A := fun w => (Threw e, w).

Definition pending {A} : M Store A := fun w => (Pending, w).

Definition bind {A B} (m : M Store A) (k : A -> M Store B) : M Store B :=
  fun w =>
    match m w with
    | (Returned a, w') => k a w'
    | (Threw e, w') => (Threw e, w')
    | (Pending, w') => (Pending, w')
    end.

(** [try { m } catch (error) { h error }] *)
Definition try_catch {A} (m : M Store A) (h : Exn -> M Store A) : M Store A :=
  fun w =>
    match m w with
    | (Returned a, w') => (Returned a, w')
    | (Threw e, w') => h e w'
    | (Pending, w') => (Pending, w')
    end.

Definition lift {A} (o : Outcome A) : M Store A := fun w => (o, w).

Definition record_event (ev : Event) (w : World Store) : World Store :=
  mkWorld (w_db w) (w_entropy w) (w_cursor w) (w_log w ++ [ev]).

Definition set_db (db : Store) (w : World Store) : World Store :=
  mkWorld db (w_entropy w) (w_cursor w) (w_log w).

End Monad.

Definition obind {A B} (o : Outcome A) (k : A -> Outcome B) : Outcome B :=
  match o with
  | Returned a => k a
  | Threw e => Threw e
  | Pending => Pending
  end.

Notation "'let!' x ':=' m 'in' k" := (bind m (fun x => k))
  (at level 10, x name, m at level 100, k at level 200).
Notation "'let?' x ':=' o 'in' k" := (obind o (fun x => k))
  (at level 10, x name, o at level 100, k at level 200).

(** ** [generateApiKey] *)

(** The largest size [randomBytes] takes: [2 ** 31 - 1]. *)
Definition kMaxLength : Z := 2147483647.

(** [buffer.constants.MAX_STRING_LENGTH], the longest string there is:
    [0x1fffffe8] characters. *)
Definition MAX_STRING_LENGTH : Z := 536870888.

(** [randomBytes(size)]: a size that is negative or over [2 ** 31 - 1] is
    refused with a [RangeError]; otherwise the buffer holds the next [size]
    bytes of the random source, which is taken to supply them (a source
    that fails is not part of this model).  Sizes are whole numbers, as
    all numbers here. *)
Definition randomBytes {Store} (size : Z) : M Store (list byte) :=
  fun w =>
    if (size <? 0)%Z || (kMaxLength <? size)%Z
    then (Threw (RangeError "ERR_OUT_OF_RANGE"), w)
    else
      (Returned (map (w_entropy w) (seq (w_cursor w) (Z.to_nat size))),
       mkWorld (w_db w) (w_entropy w) (w_cursor w + Z.to_nat size) (w_log w)).

(** [buffer.toString("hex")]: two characters a byte, and an error when the
    string would be longer than a string can be. *)
Definition toString_hex (buffer : list byte) : Outcome string :=
  if (MAX_STRING_LENGTH <? 2 * Z.of_nat (length buffer))%Z
  then Threw (Error "ERR_STRING_TOO_LONG")
  else Returned (Hex.encode buffer).

(** [length: number = 64] *)
Definition default_length : nat := 64.

Definition generateApiKey {Store} (length : Z) : M Store string :=
  let! buffer := randomBytes length in
  let! apiKey := lift (toString_hex buffer) in
  ret apiKey.

(** ** The endpoint: [server/pages/api/account.ts] *)

(** [AppState] as the endpoint fills it: [{} as AppState] with [apikey] and
    [credits] assigned from whatever the query returned. *)
Record AppState : Type := { apikey : JsValue; credits : JsValue }.

(** [req.query.slug]: [string | string[] | undefined] *)
Inductive QueryValue : Type :=
  | QUndefined
  | QString (s : string)
  | QArray (items : list string).

(** The request, with what [supabase.auth.getSession()] and
    [supabase.auth.getUser()] resolve for it. *)
Record Request : Type :=
  { req_method : option string;
    req_slug : QueryValue;
    auth_session : option Session;
    auth_user : option User }.

(** [res.status(code)], with the body once [.json(body)] has sent it. *)
Record Response : Type := { res_status : Z; res_body : option JsValue }.

(** What a middleware does with its callback: calls it (with a result that
    is an [Error] or not), or answers the request itself and never calls
    it. *)
Inductive MiddlewareResult : Type :=
  | NextCalled (error : option Exn)
  | NextNotCalled.

Definition json (code : Z) (body : JsValue) : Response :=
  {| res_status := code; res_body := Some body |}.

Definition status_only (code : Z) : Response :=
  {| res_status := code; res_body := None |}.

Definition error_body (error message : string) : JsValue :=
  JObj [("error", JStr error); ("message", JStr message)].

(** [xs.includes(x)] *)
Definition includes (xs : list string) (x : string) : bool :=
  existsb (String.eqb x) xs.

(** [req.method === m] *)
Definition method_is (req : Request) (m : string) : bool :=
  match req_method req with
  | Some m' => String.eqb m' m
  | None => false
  end.

(** [!!req.query.slug] *)
Definition slug_truthy (slug : QueryValue) : bool :=
  match slug with
  | QUndefined => false
  | QString s => negb (String.eqb s "")
  | QArray _ => true
  end.

(** [Array.isArray(slug) && slug.length === 1 && slug[0] === "apikey"] *)
Definition slug_is_apikey (slug : QueryValue) : bool :=
  match slug with
  | QArray [s] => String.eqb s "apikey"
  | _ => false
  end.

(** [JSON.stringify] leaves out a property whose value is [undefined]. *)
Definition property (k : string) (v : JsValue) : list (string * JsValue) :=
  match v with
  | JUndefined => []
  | _ => [(k, v)]
  end.

Definition json_of_appState (st : AppState) : JsValue :=
  JObj (property "apikey" (apikey st) ++ property "credits" (credits st)).

(** Lines 108-116 of [getAppStateForUser]: the checks on [data] and the
    assembly of the state. *)
Definition readAppState (data : JsValue) : Outcome AppState :=
  match data with
  | JArr items =>
      let row := Js.first items in
      let? apikey := Js.get row "apikey" in
      if negb (Js.truthy apikey) then Threw (Error "No account found") else
      let? credits := Js.get row "credits" in
      if Js.isArray credits || negb (Js.truthy credits)
      then Threw (Error "No credits found") else
      let? total_credits_cents := Js.get credits "total_credits_cents" in
      Returned {| apikey := apikey; credits := total_credits_cents |}
  | _ => Threw (Error "No account found")
  end.

Definition seed_credits_cents : Z := 1000.

(** [{ onConflict: "id", ignoreDuplicates: true }] *)
Definition seed_upsert_options : UpsertOptions :=
  {| onConflict := "id"; ignoreDuplicates := true |}.

(** [{ id: user.id, apikey: generateApiKey(), name: user.email }] *)
Definition account_row (user : User) (apikey : string) : AccountRow :=
  {| acc_id := user_id user; acc_apikey := apikey; acc_name := user_email user |}.

(** [{ id: user.id, total_credits_cents: 1000 }] *)
Definition credits_row (user : User) : CreditRow :=
  {| cr_id := user_id user; cr_total_credits_cents := seed_credits_cents |}.

Section Endpoint.
Context {Store : Type} (client : StoreClient Store).
Context (cors : Request -> MiddlewareResult).

Definition select_account (id : string) : M Store QueryResult :=
  fun w =>
    (Returned (accounts_select_apikey_single client (w_db w) id),
     record_event (EvSelect id) w).

Definition insert_account (row : AccountRow) : M Store (option PgError) :=
  fun w =>
    let '(db', err) := accounts_insert client (w_db w) row in
    (Returned err, record_event (EvInsert row) (set_db db' w)).

Definition upsert_credits (row : CreditRow) (options : UpsertOptions)
  : M Store (option PgError) :=
  fun w =>
    let '(db', err) := credits_upsert client (w_db w) row options in
    (Returned err, record_event (EvUpsert row) (set_db db' w)).

Definition runMiddleware (req : Request) (fn : Request -> MiddlewareResult)
  : M Store unit :=
  match fn req with
  | NextCalled (Some e) => throw e
  | NextCalled None => ret tt
  | NextNotCalled => pending
  end.

Definition getAppStateForUser (user : User) : M Store AppState :=
  let! result := select_account (user_id user) in
  lift (readAppState (qr_data result)).

(** Lines 126-145 of [getAppStateFromDb]: what follows the [try]/[catch]
    once the first read has thrown. *)
Definition createAccountAndCredits (user : User) : M Store AppState :=
  (* if not found, create a new row in the accounts table and credits table *)
  let! apikey := generateApiKey (Z.of_nat default_length) in
  let! accountsErr := insert_account (account_row user apikey) in
  match accountsErr with
  | Some _ => throw (Error "Error creating account")
  | None =>
      let! creditsErr :=
        upsert_credits (credits_row user) seed_upsert_options in
      match creditsErr with
      | Some _ => throw (Error "Error creating credits")
      | None => getAppStateForUser user
      end
  end.

Definition getAppStateFromDb (user : User) : M Store AppState :=
  try_catch (getAppStateForUser user) (fun _ => createAccountAndCredits user).

Definition handler (req : Request) : M Store Response :=
  let! _ := runMiddleware req cors in
  if negb (includes ["POST"; "GET"] (default "" (req_method req))) then
    ret (json 405 (error_body "not_allowed" "Method not allowed"))
  else
  match auth_session req with
  | None => ret (json 401 (error_body "not_authenticated" "not authenticated"))
  | Some _ =>
  match auth_user req with
  | None => ret (json 401 (error_body "not_authenticated" "not authenticated"))
  | Some user =>
      if method_is req "GET" && negb (slug_truthy (req_slug req)) then
        try_catch
          (let! appState := getAppStateFromDb user in
           ret (json 200 (json_of_appState appState)))
          (fun _ => ret (json 500 (error_body "server_error" "something went wrong")))
      else if method_is req "POST" && slug_truthy (req_slug req)
              && slug_is_apikey (req_slug req) then
        let! apikey := generateApiKey (Z.of_nat default_length) in
        ret (json 200 (JObj [("apikey", JStr apikey)]))
      else ret (status_only 404)
  end end.

End Endpoint.

(** The two request shapes the handler serves, as its conditions of lines
    74 and 85-91 spell them. *)
Definition is_get_state (req : Request) : bool :=
  method_is req "GET" && negb (slug_truthy (req_slug req)).

Definition is_post_apikey (req : Request) : bool :=
  method_is req "POST" && slug_truthy (req_slug req)
  && slug_is_apikey (req_slug req).

(** [["POST", "GET"].includes(req.method || "")] *)
Definition method_allowed (req : Request) : bool :=
  includes ["POST"; "GET"] (default "" (req_method req)).

(** [session] and [user] are both there. *)
Definition authenticated (req : Request) : bool :=
  match auth_session req, auth_user req with
  | Some _, Some _ => true
  | _, _ => false
  end.

Definition not_allowed : Response :=
  json 405 (error_body "not_allowed" "Method not allowed").

Definition not_authenticated : Response :=
  json 401 (error_body "not_authenticated" "not authenticated").

Definition server_error : Response :=
  json 500 (error_body "server_error" "something went wrong").

Definition not_found : Response := status_only 404.

(** The key [generateApiKey()] returns next in a world. *)
Definition next_apikey {Store} (w : World Store) : string :=
  Hex.encode (map (w_entropy w) (seq (w_cursor w) default_length)).

Definition draw {Store} (n : nat) (w : World Store) : World Store :=
  mkWorld (w_db w) (w_entropy w) (w_cursor w + n) (w_log w).

(** ** The CORS middleware *)

(** [Cors({ methods: ["POST", "GET", "HEAD"] })]: the package answers a
    pre-flight [OPTIONS] request itself and does not call the callback; for
    every other request it sets its headers and calls the callback without
    an error. *)
Definition cors (req : Request) : MiddlewareResult :=
  if method_is req "OPTIONS" then NextNotCalled else NextCalled None.

(** ** The store behind [supabaseAdminClient] *)

Module Supabase.

Record Db : Type :=
  { tbl_accounts : list AccountRow; tbl_credits : list CreditRow }.

Definition accounts_of (id : string) (db : Db) : list AccountRow :=
  filter (fun row => acc_id row = id) (tbl_accounts db).

Definition credits_of (id : string) (db : Db) : list CreditRow :=
  filter (fun row => cr_id row = id) (tbl_credits db).

(** Modelled from the spec: the Account Store's
    [findByPrincipal(id) -> AccountRecord | NotFound] (section 4.2) is not
    part of the endpoint's code; it is given here in the form the query of
    lines 99-103 asks for it.  [select("apikey")] projects the row on its
    [apikey] column and [single()] delivers the one matching row as an
    object; when there is not exactly one such row, [data] is [null] and
    [error] is set. *)
Definition select_apikey_single (db : Db) (id : string) : QueryResult :=
  match accounts_of id db with
  | [row] =>
      {| qr_data := JObj [("apikey", JStr (acc_apikey row))]; qr_error := None |}
  | _ => {| qr_data := JNull; qr_error := Some {| pg_code := "PGRST116" |} |}
  end.

(** Modelled from the spec: the Account Store's [create] (section 4.2), "a
    uniqueness-enforcing insert" that reports a conflict "rather than
    silently overwriting or duplicating". *)
Definition insert (db : Db) (row : AccountRow) : Db * option PgError :=
  match accounts_of (acc_id row) db with
  | [] =>
      ({| tbl_accounts := tbl_accounts db ++ [row]; tbl_credits := tbl_credits db |},
       None)
  | _ :: _ => (db, Some {| pg_code := "23505" |})
  end.

(** Modelled from the spec: the Credit Ledger's [createIfAbsent] (section
    4.3), an "upsert keyed on principal_id", with the two options the
    client's [upsert] takes: a row whose [id] is taken is left as it is
    under [ignoreDuplicates] and replaced otherwise; [id] is the only
    column a conflict can be declared on. *)
Definition upsert (db : Db) (row : CreditRow) (options : UpsertOptions)
  : Db * option PgError :=
  if negb (String.eqb (onConflict options) "id")
  then (db, Some {| pg_code := "42P10" |})
  else
    match credits_of (cr_id row) db with
    | [] =>
        ({| tbl_accounts := tbl_accounts db; tbl_credits := tbl_credits db ++ [row] |},
         None)
    | _ :: _ =>
        if ignoreDuplicates options then (db, None)
        else
          ({| tbl_accounts := tbl_accounts db;
              tbl_credits :=
                map (fun old => if decide (cr_id old = cr_id row) then row else old)
                    (tbl_credits db) |},
           None)
    end.

Definition client : StoreClient Db :=
  {| accounts_select_apikey_single := select_apikey_single;
     accounts_insert := insert;
     credits_upsert := upsert |}.

(** The balance on record for a principal, when there is exactly one. *)
Definition balance_of (id : string) (db : Db) : option Z :=
  match credits_of id db with
  | [row] => Some (cr_total_credits_cents row)
  | _ => None
  end.

End Supabase.

(** ** A client that answers in the shape the checks are written for *)

Module Joined.

(** The ledger row embedded in its account row: an object, or [null] when
    there is not exactly one. *)
Definition embedded_credits (db : Supabase.Db) (id : string) : JsValue :=
  match Supabase.credits_of id db with
  | [entry] => JObj [("total_credits_cents", JNum (cr_total_credits_cents entry))]
  | _ => JNull
  end.

Definition joined_row (db : Supabase.Db) (row : AccountRow) : JsValue :=
  JObj [("apikey", JStr (acc_apikey row));
        ("credits", embedded_credits db (acc_id row))].

(** Not the query of lines 99-103: the answer lines 108-116 look for, an
    array of the matching account rows, each with its ledger row embedded
    (as [select("apikey, credits(total_credits_cents)").eq("id", id)]
    would give it).  This client serves to run the code past its shape
    checks. *)
Definition select_joined (db : Supabase.Db) (id : string) : QueryResult :=
  {| qr_data := JArr (map (joined_row db) (Supabase.accounts_of id db));
     qr_error := None |}.

Definition client : StoreClient Supabase.Db :=
  {| accounts_select_apikey_single := select_joined;
     accounts_insert := Supabase.insert;
     credits_upsert := Supabase.upsert |}.

End Joined.

(** A client on the store: it writes with the store's [insert] and
    [upsert], its read finds nothing for a principal without account row,
    and a state it assembles carries the balance on record. *)
Record reads_the_store (cl : StoreClient Supabase.Db) : Prop :=
  { writes_with_insert : accounts_insert cl = Supabase.insert;
    writes_with_upsert : credits_upsert cl = Supabase.upsert;
    read_needs_account :
      forall db id st,
        Supabase.accounts_of id db = [] ->
        readAppState (qr_data (accounts_select_apikey_single cl db id))
        <> Returned st;
    read_gives_balance :
      forall db id st,
        readAppState (qr_data (accounts_select_apikey_single cl db id))
        = Returned st ->
        exists balance,
          Supabase.balance_of id db = Some balance
          /\ credits st = JNum balance }.

(** ** The client: [server/components/AppContext.tsx] *)

Module AppContext.

(** The [useState] cells of [AppProvider].  [appState] is a JavaScript
    object, a finite map from property names to values. *)
Record ProviderState : Type :=
  { appState : gmap string JsValue;
    promptLoading : bool;
    accountLoading : bool;
    attempts : list JsValue }.

Definition no_stats : JsValue := JObj [("attempts", JNum 0); ("breaches", JNum 0)].

Definition initState : gmap string JsValue :=
  <["apikey" := JStr ""]>
  (<["credits" := JNum 0]>
  (<["promptLoading" := JBool false]>
  (<["accountLoading" := JBool false]>
  (<["stats" := JObj [("last24h", no_stats); ("last7d", no_stats);
                      ("alltime", no_stats)]]> ∅)))).

Definition initProvider : ProviderState :=
  {| appState := initState; promptLoading := false; accountLoading := false;
     attempts := [] |}.

(** [setAppState(update)] with an updater function *)
Definition setAppState (update : gmap string JsValue -> gmap string JsValue)
    (st : ProviderState) : ProviderState :=
  {| appState := update (appState st);
     promptLoading := promptLoading st;
     accountLoading := accountLoading st;
     attempts := attempts st |}.

Definition setPromptLoading (b : bool) (st : ProviderState) : ProviderState :=
  {| appState := appState st;
     promptLoading := b;
     accountLoading := accountLoading st;
     attempts := attempts st |}.

(** [(prev) => ({ ...prev, apikey: apikey })] *)
Definition setApikey (apikey : JsValue) : ProviderState -> ProviderState :=
  setAppState (fun prev => <["apikey" := apikey]> prev).

Definition setCredits (credits : JsValue) : ProviderState -> ProviderState :=
  setAppState (fun prev => <["credits" := credits]> prev).

Definition setStats (stats : JsValue) : ProviderState -> ProviderState :=
  setAppState (fun prev => <["stats" := stats]> prev).

(** What [fetch(...)] followed by [response.json()] settles to. *)
Inductive Fetched : Type :=
  | FetchRejected (e : Exn)
  | FetchResolved (data : JsValue).

(** [refreshApikey], run to completion against the answer of
    [POST /api/account/apikey]. *)
Definition refreshApikey (fetched : Fetched) (st : ProviderState) : ProviderState :=
  let st1 := setPromptLoading true st in
  let st2 :=
    match fetched with
    | FetchResolved data =>
        match Js.get data "apikey" with
        | Returned apikey => setApikey apikey st1
        | Threw _ | Pending => st1
        end
    | FetchRejected _ => st1
    end in
  setPromptLoading false st2.

Definition setAccountLoading (b : bool) (st : ProviderState) : ProviderState :=
  {| appState := appState st;
     promptLoading := promptLoading st;
     accountLoading := b;
     attempts := attempts st |}.

(** [setAttempts(update)] with an updater function *)
Definition setAttempts (update : list JsValue -> list JsValue)
    (st : ProviderState) : ProviderState :=
  {| appState := appState st;
     promptLoading := promptLoading st;
     accountLoading := accountLoading st;
     attempts := update (attempts st) |}.

(** [refreshAppState], run to completion against the answer of
    [GET /api/account]: [setAppState(data)] puts the answer in the place of
    the state, whatever its status was.  The cell holds an object; for an
    answer that is JSON but no object the model has no state to give
    ([None]). *)
Definition refreshAppState (fetched : Fetched) (st : ProviderState)
  : option ProviderState :=
  let st1 := setAccountLoading true st in
  match fetched with
  | FetchResolved (JObj fields) =>
      Some (setAccountLoading false
              (setAppState (fun _ => list_to_map fields) st1))
  | FetchResolved _ => None
  | FetchRejected _ => Some (setAccountLoading false st1)
  end.

(** [onChange]: the effect that runs when [session] changes. *)
Definition onChange (session : option Session) (fetched : Fetched)
    (st : ProviderState) : option ProviderState :=
  match session with
  | Some _ => refreshAppState fetched st
  | None => Some st
  end.

(** [undefined] or [null] *)
Definition is_nullish (v : JsValue) : bool :=
  match v with
  | JUndefined | JNull => true
  | _ => false
  end.

(** Whether [fetch] and [response.json()] settled on a value that can be
    destructured. *)
Definition answered (fetched : Fetched) : bool :=
  match fetched with
  | FetchResolved data => negb (is_nullish data)
  | FetchRejected _ => false
  end.

(** What the [catch] of [submitPrompt] is handed: the rejection of the
    fetch, or the [TypeError] of destructuring [null] or [undefined]. *)
Definition caught_error (fetched : Fetched) : option Exn :=
  match fetched with
  | FetchRejected e => Some e
  | FetchResolved data =>
      match Js.get data "metrics" with
      | Threw e => Some e
      | _ => None
      end
  end.

(** [PromptRequest], of which this code reads [userInput]. *)
Record PromptRequest : Type := { userInput : JsValue }.

(** [a || b] *)
Definition or_else (a b : JsValue) : JsValue := if Js.truthy a then a else b.

(** [{ k = d } = data]: the default stands in for [undefined] only. *)
Definition with_default (v d : JsValue) : JsValue :=
  match v with
  | JUndefined => d
  | _ => v
  end.

Definition default_metrics : JsValue :=
  JObj [("runHeuristicCheck", JBool false);
        ("runLanguageModelCheck", JBool false);
        ("runVectorCheck", JBool false);
        ("vectorScore", JObj []);
        ("heuristicScore", JNum 0);
        ("modelScore", JNum 0);
        ("maxHeuristicScore", JNum 0);
        ("maxModelScore", JNum 0);
        ("maxVectorScore", JNum 0)].

(** The caught value, as the [error] of an attempt. *)
Definition js_error (e : Exn) : JsValue :=
  match e with
  | Error msg => JObj [("name", JStr "Error"); ("message", JStr msg)]
  | TypeError msg => JObj [("name", JStr "TypeError"); ("message", JStr msg)]
  | RangeError msg => JObj [("name", JStr "RangeError"); ("message", JStr msg)]
  end.

(** The attempt of lines 121-130, from the answer [data]. *)
Definition attempt_of_answer (prompt : PromptRequest) (now data : JsValue)
  : Outcome JsValue :=
  let? metrics := Js.get data "metrics" in
  let? is_injection := Js.get data "is_injection" in
  let? output := Js.get data "output" in
  let? canary_word := Js.get data "canary_word" in
  let? canary_word_leaked := Js.get data "canary_word_leaked" in
  Returned
    (JObj [("error", JNull);
           ("timestamp", now);
           ("input", or_else (userInput prompt) (JStr ""));
           ("metrics", with_default metrics default_metrics);
           ("is_injection", with_default is_injection (JBool false));
           ("output", or_else (with_default output (JStr "")) (JStr ""));
           ("canary_word", with_default canary_word (JStr ""));
           ("canary_word_leaked", canary_word_leaked)]).

(** The attempt of lines 134-153, from the caught [error]. *)
Definition attempt_of_error (prompt : PromptRequest) (now : JsValue) (error : Exn)
  : JsValue :=
  JObj [("error", js_error error);
        ("timestamp", now);
        ("input", or_else (userInput prompt) (JStr ""));
        ("metrics", default_metrics);
        ("is_injection", JBool false);
        ("output", JStr "");
        ("canary_word", JStr "");
        ("canary_word_leaked", JBool false)].

(** [submitPrompt], run to completion against the answer of
    [POST /api/playground]; [now] is what [new Date()] gives. *)
Definition submitPrompt (prompt : PromptRequest) (fetched : Fetched)
    (now : JsValue) (st : ProviderState) : ProviderState :=
  let st1 := setPromptLoading true st in
  let failed error :=
    setAttempts (fun prev => attempt_of_error prompt now error :: prev) st1 in
  let st2 :=
    match fetched with
    | FetchResolved data =>
        match attempt_of_answer prompt now data with
        | Returned attempt => setAttempts (fun prev => prev ++ [attempt]) st1
        | Threw error => failed error
        | Pending => st1
        end
    | FetchRejected error => failed error
    end in
  setPromptLoading false st2.

End AppContext.

(** ** Sample data *)

Module Sample.

Definition entropy (n : nat) : byte :=
  default x00 (Byte.of_N (N.of_nat (n * 37 + 11) mod 256)).

Definition alice : User :=
  {| user_id := "alice"; user_email := Some "alice@example.org" |}.

Definition session : Session := {| session_user := "alice" |}.

Definition alice_account : AccountRow :=
  {| acc_id := "alice"; acc_apikey := "00ff"; acc_name := Some "alice@example.org" |}.

Definition alice_credits : CreditRow :=
  {| cr_id := "alice"; cr_total_credits_cents := 1000 |}.

Definition empty_db : Supabase.Db :=
  {| Supabase.tbl_accounts := []; Supabase.tbl_credits := [] |}.

(** Account row and ledger row both there. *)
Definition provisioned_db : Supabase.Db :=
  {| Supabase.tbl_accounts := [alice_account];
     Supabase.tbl_credits := [alice_credits] |}.

(** The account row without its ledger row. *)
Definition account_only_db : Supabase.Db :=
  {| Supabase.tbl_accounts := [alice_account]; Supabase.tbl_credits := [] |}.

Definition world (db : Supabase.Db) : World Supabase.Db := mkWorld db entropy 0 [].

Definition request (method : string) (slug : QueryValue) (signed_in : bool)
  : Request :=
  {| req_method := Some method;
     req_slug := slug;
     auth_session := if signed_in then Some session else None;
     auth_user := if signed_in then Some alice else None |}.

(** The ledger row, with a balance of its own, without the account row. *)
Definition credits_only_db : Supabase.Db :=
  {| Supabase.tbl_accounts := [];
     Supabase.tbl_credits := [{| cr_id := "alice"; cr_total_credits_cents := 250 |}] |}.

End Sample.

(** * Properties *)

(** ** Hexadecimal encoding *)

Lemma hex_byte_roundtrip (b : byte) :
  Hex.value (Hex.digit (Byte.to_N b / 16)) = Some (Byte.to_N b / 16)%N /\
  Hex.value (Hex.digit (Byte.to_N b mod 16)) = Some (Byte.to_N b mod 16)%N /\
  Byte.of_N (16 * (Byte.to_N b / 16) + Byte.to_N b mod 16) = Some b.
Proof. destruct b; repeat split; reflexivity. Qed.

Lemma hex_decode_encode (bytes : list byte) :
  Hex.decode (Hex.encode bytes) = Some bytes.
Proof.
  induction bytes as [|b rest IH]; [reflexivity|].
  cbn [Hex.encode Hex.decode].
  destruct (hex_byte_roundtrip b) as (Hh & Hl & Hb).
  by rewrite Hh, Hl, IH, Hb.
Qed.

Lemma hex_encode_length (bytes : list byte) :
  String.length (Hex.encode bytes) = 2 * length bytes.
Proof.
  induction bytes as [|b rest IH]; [reflexivity|].
  cbn [Hex.encode String.length length]. rewrite IH. lia.
Qed.

Lemma hex_encode_lower (bytes : list byte) :
  Hex.all_chars Hex.is_lower_hex (Hex.encode bytes) = true.
Proof.
  induction bytes as [|b rest IH]; [reflexivity|].
  cbn [Hex.encode Hex.all_chars]. rewrite IH.
  destruct (hex_byte_roundtrip b) as (Hh & Hl & _).
  unfold Hex.is_lower_hex. by rewrite Hh, Hl.
Qed.

(** ** [generateApiKey] *)

Lemma generateApiKey_in_range {Store} (length : Z) (w : World Store) :
  (0 <= length)%Z ->
  (2 * length <= MAX_STRING_LENGTH)%Z ->
  generateApiKey length w
  = (Returned
       (Hex.encode (map (w_entropy w) (seq (w_cursor w) (Z.to_nat length)))),
     draw (Z.to_nat length) w).
Proof.
  intros Hlo Hhi. unfold generateApiKey, bind, randomBytes.
  assert (Hsize : (length <? 0)%Z || (kMaxLength <? length)%Z = false).
  { unfold kMaxLength, MAX_STRING_LENGTH in *.
    apply orb_false_iff. split; apply Z.ltb_ge; lia. }
  rewrite Hsize. unfold lift, toString_hex.
  rewrite length_map, length_seq, Z2Nat.id by lia.
  assert (Hfits : (MAX_STRING_LENGTH <? 2 * length)%Z = false)
    by (apply Z.ltb_ge; lia).
  by rewrite Hfits.
Qed.

Lemma generateApiKey_out_of_range {Store} (length : Z) (w : World Store) :
  (length < 0 \/ kMaxLength < length)%Z ->
  generateApiKey length w = (Threw (RangeError "ERR_OUT_OF_RANGE"), w).
Proof.
  intros Hout. unfold generateApiKey, bind, randomBytes.
  assert (Hsize : (length <? 0)%Z || (kMaxLength <? length)%Z = true).
  { apply orb_true_iff. destruct Hout; [left|right]; by apply Z.ltb_lt. }
  by rewrite Hsize.
Qed.

Lemma generateApiKey_too_long {Store} (length : Z) (w : World Store) :
  (MAX_STRING_LENGTH < 2 * length)%Z ->
  (length <= kMaxLength)%Z ->
  generateApiKey length w
  = (Threw (Error "ERR_STRING_TOO_LONG"), draw (Z.to_nat length) w).
Proof.
  intros Hlong Hsize. unfold generateApiKey, bind, randomBytes.
  assert (Hok : (length <? 0)%Z || (kMaxLength <? length)%Z = false).
  { unfold MAX_STRING_LENGTH in Hlong.
    apply orb_false_iff. split; apply Z.ltb_ge; lia. }
  rewrite Hok. unfold lift, toString_hex.
  rewrite length_map, length_seq, Z2Nat.id
    by (unfold MAX_STRING_LENGTH in Hlong; lia).
  assert (Hfits : (MAX_STRING_LENGTH <? 2 * length)%Z = true)
    by (by apply Z.ltb_lt).
  by rewrite Hfits.
Qed.

(** [generateApiKey()], with the default length. *)
Lemma generateApiKey_run {Store} (w : World Store) :
  generateApiKey (Z.of_nat default_length) w
  = (Returned (next_apikey w), draw default_length w).
Proof.
  rewrite generateApiKey_in_range by (by vm_compute).
  by rewrite Nat2Z.id.
Qed.

(** C5, as the code has it: for every length from 0 up to half the longest
    string (268435444), [generateApiKey] returns the lowercase hexadecimal
    encoding of the next [length] bytes of the random source (it decodes
    back to exactly those bytes, has twice as many characters, all in
    [0-9a-f]); with the default length of 64 the key is a 128-character
    lowercase hexadecimal string.  A length that is negative or over
    [2 ** 31 - 1] is refused with a [RangeError] and nothing is drawn; a
    length in between draws the bytes and fails on the string being too
    long. *)
Theorem generateApiKey_lowercase_hex {Store} (length : Z) (w : World Store) :
  ((0 <= length)%Z -> (2 * length <= MAX_STRING_LENGTH)%Z ->
   exists bytes : list byte,
     bytes = map (w_entropy w) (seq (w_cursor w) (Z.to_nat length))
     /\ Z.of_nat (List.length bytes) = length
     /\ generateApiKey length w
        = (Returned (Hex.encode bytes), draw (Z.to_nat length) w)
     /\ Hex.decode (Hex.encode bytes) = Some bytes
     /\ Z.of_nat (String.length (Hex.encode bytes)) = (2 * length)%Z
     /\ Hex.all_chars Hex.is_lower_hex (Hex.encode bytes) = true)
  /\ (exists key : string,
        generateApiKey (Z.of_nat default_length) w
        = (Returned key, draw default_length w)
        /\ String.length key = 128
        /\ Hex.all_chars Hex.is_lower_hex key = true)
  /\ ((length < 0 \/ kMaxLength < length)%Z ->
      generateApiKey length w = (Threw (RangeError "ERR_OUT_OF_RANGE"), w))
  /\ ((MAX_STRING_LENGTH < 2 * length)%Z -> (length <= kMaxLength)%Z ->
      generateApiKey length w
      = (Threw (Error "ERR_STRING_TOO_LONG"), draw (Z.to_nat length) w)).
Proof.
  split; [|split; [|split]].
  - intros Hlo Hhi.
    exists (map (w_entropy w) (seq (w_cursor w) (Z.to_nat length))).
    assert (Hlen : List.length (map (w_entropy w)
                                  (seq (w_cursor w) (Z.to_nat length)))
                   = Z.to_nat length)
      by (by rewrite length_map, length_seq).
    repeat split.
    + rewrite Hlen. lia.
    + by apply generateApiKey_in_range.
    + apply hex_decode_encode.
    + rewrite hex_encode_length, Hlen. lia.
    + apply hex_encode_lower.
  - exists (next_apikey w). split; [apply generateApiKey_run|].
    split; [|apply hex_encode_lower]. unfold next_apikey.
    rewrite hex_encode_length, length_map, length_seq. reflexivity.
  - apply generateApiKey_out_of_range.
  - apply generateApiKey_too_long.
Qed.

(** ** The orchestrator, for any store client *)

Section Orchestrator.
Context {Store : Type} (client : StoreClient Store).

Lemma get_settles (v : JsValue) (k : string) : Js.get v k <> Pending.
Proof. by destruct v. Qed.

Lemma readAppState_settles (data : JsValue) : readAppState data <> Pending.
Proof.
  destruct data as [| | | | |items|]; try done. unfold readAppState.
  destruct (Js.get (Js.first items) "apikey") as [a| |] eqn:Ha; try done;
    [|by apply get_settles in Ha].
  cbn [obind]. destruct (negb (Js.truthy a)); [done|].
  destruct (Js.get (Js.first items) "credits") as [c| |] eqn:Hc; try done;
    [|by apply get_settles in Hc].
  cbn [obind]. destruct (Js.isArray c || negb (Js.truthy c)); [done|].
  destruct (Js.get c "total_credits_cents") as [t| |] eqn:Ht; try done.
  by apply get_settles in Ht.
Qed.

Lemma next_apikey_record (ev : Event) (w : World Store) :
  next_apikey (record_event ev w) = next_apikey w.
Proof. reflexivity. Qed.

(** The read is one [select] and leaves the store as it is. *)
Lemma getAppStateForUser_run (user : User) (w : World Store) :
  getAppStateForUser client user w
  = (readAppState
       (qr_data (accounts_select_apikey_single client (w_db w) (user_id user))),
     record_event (EvSelect (user_id user)) w).
Proof. reflexivity. Qed.

(** Lines 126-145, case by case. *)
Lemma createAccountAndCredits_run (user : User) (w : World Store) :
  createAccountAndCredits client user w
  = let row := account_row user (next_apikey w) in
    let keyed := draw default_length w in
    match accounts_insert client (w_db w) row with
    | (db1, Some _) =>
        (Threw (Error "Error creating account"),
         record_event (EvInsert row) (set_db db1 keyed))
    | (db1, None) =>
        let inserted := record_event (EvInsert row) (set_db db1 keyed) in
        match credits_upsert client db1 (credits_row user) seed_upsert_options with
        | (db2, Some _) =>
            (Threw (Error "Error creating credits"),
             record_event (EvUpsert (credits_row user)) (set_db db2 inserted))
        | (db2, None) =>
            getAppStateForUser client user
              (record_event (EvUpsert (credits_row user)) (set_db db2 inserted))
        end
    end.
Proof.
  unfold createAccountAndCredits, bind, insert_account, upsert_credits.
  rewrite generateApiKey_run. cbn [w_db draw]. fold (next_apikey w).
  destruct (accounts_insert client (w_db w) (account_row user (next_apikey w)))
    as [db1 [err|]]; [reflexivity|].
  cbn [w_db record_event set_db].
  destruct (credits_upsert client db1 (credits_row user) seed_upsert_options)
    as [db2 [err|]]; reflexivity.
Qed.

(** When the first read assembles a state, that state is returned at once:
    one [select], no write. *)
Lemma getAppStateFromDb_fast (user : User) (w : World Store) (st : AppState) :
  fst (getAppStateForUser client user w) = Returned st ->
  getAppStateFromDb client user w
  = (Returned st, record_event (EvSelect (user_id user)) w).
Proof.
  rewrite getAppStateForUser_run. cbn [fst]. intros Hread.
  unfold getAppStateFromDb, try_catch. rewrite getAppStateForUser_run.
  by rewrite Hread.
Qed.

(** When it throws, lines 126-145 run in the world the read left. *)
Lemma getAppStateFromDb_slow (user : User) (w : World Store) (e : Exn) :
  fst (getAppStateForUser client user w) = Threw e ->
  getAppStateFromDb client user w
  = createAccountAndCredits client user (record_event (EvSelect (user_id user)) w).
Proof.
  rewrite getAppStateForUser_run. cbn [fst]. intros Hread.
  unfold getAppStateFromDb, try_catch. rewrite getAppStateForUser_run.
  by rewrite Hread.
Qed.

Lemma first_read_cases (user : User) (w : World Store) :
  (exists st, fst (getAppStateForUser client user w) = Returned st)
  \/ (exists e, fst (getAppStateForUser client user w) = Threw e).
Proof.
  rewrite getAppStateForUser_run. cbn [fst].
  destruct (readAppState _) as [st|e|] eqn:Hread; [eauto|eauto|].
  by apply readAppState_settles in Hread.
Qed.

(** Once both writes have gone through, the call is the re-read on the
    store they left. *)
Lemma getAppStateFromDb_written
    (user : User) (w : World Store) (e : Exn) (db1 db2 : Store) :
  fst (getAppStateForUser client user w) = Threw e ->
  accounts_insert client (w_db w) (account_row user (next_apikey w)) = (db1, None) ->
  credits_upsert client db1 (credits_row user) seed_upsert_options = (db2, None) ->
  getAppStateFromDb client user w
  = getAppStateForUser client user
      (mkWorld db2 (w_entropy w) (w_cursor w + default_length)
         (w_log w ++ [EvSelect (user_id user);
                      EvInsert (account_row user (next_apikey w));
                      EvUpsert (credits_row user)])).
Proof.
  intros Hread Hins Hups.
  rewrite (getAppStateFromDb_slow _ _ _ Hread), createAccountAndCredits_run.
  rewrite next_apikey_record. cbn [w_db record_event].
  rewrite Hins, Hups. unfold record_event, set_db, draw.
  cbn [w_db w_entropy w_cursor w_log].
  by rewrite <- !app_assoc.
Qed.

(** The creation path, case by case, with the world it leaves. *)
Lemma getAppStateFromDb_creation (user : User) (w : World Store) (e : Exn) :
  fst (getAppStateForUser client user w) = Threw e ->
  getAppStateFromDb client user w
  = let id := user_id user in
    let row := account_row user (next_apikey w) in
    let entry := credits_row user in
    let after (db : Store) (calls : list Event) :=
      mkWorld db (w_entropy w) (w_cursor w + default_length) (w_log w ++ calls) in
    match accounts_insert client (w_db w) row with
    | (db1, Some _) =>
        (Threw (Error "Error creating account"),
         after db1 [EvSelect id; EvInsert row])
    | (db1, None) =>
        match credits_upsert client db1 entry seed_upsert_options with
        | (db2, Some _) =>
            (Threw (Error "Error creating credits"),
             after db2 [EvSelect id; EvInsert row; EvUpsert entry])
        | (db2, None) =>
            (readAppState
               (qr_data (accounts_select_apikey_single client db2 id)),
             after db2 [EvSelect id; EvInsert row; EvUpsert entry; EvSelect id])
        end
    end.
Proof.
  intros Hread.
  rewrite (getAppStateFromDb_slow _ _ _ Hread), createAccountAndCredits_run.
  rewrite next_apikey_record. cbv zeta. cbn [w_db record_event].
  destruct (accounts_insert client (w_db w) (account_row user (next_apikey w)))
    as [db1 [err|]].
  { unfold record_event, set_db, draw. cbn [w_db w_entropy w_cursor w_log].
    by rewrite <- app_assoc. }
  destruct (credits_upsert client db1 (credits_row user) seed_upsert_options)
    as [db2 [err|]].
  { unfold record_event, set_db, draw. cbn [w_db w_entropy w_cursor w_log].
    by rewrite <- !app_assoc. }
  rewrite getAppStateForUser_run.
  unfold record_event, set_db, draw. cbn [w_db w_entropy w_cursor w_log].
  by rewrite <- !app_assoc.
Qed.

(** C2, as the code has it: once the creation path is entered, what the
    call does is decided by the two writes.  When neither the account
    insert nor the ledger upsert reports an error, the read of step 1 is
    run again (the same one [select], on the accounts table) after the log
    [select; insert; upsert], on the store the two writes left, and the
    outcome of the call, a returned state or a failure, is what
    [readAppState] makes of the answer of that second [select].  When the
    insert reports an error the call throws "Error creating account" after
    [select; insert], and when the upsert reports one it throws "Error
    creating credits" after [select; insert; upsert]: in both cases nothing
    is read again. *)
Theorem creation_path_rereads_after_writes
    (user : User) (w : World Store) (e : Exn) :
  fst (getAppStateForUser client user w) = Threw e ->
  let id := user_id user in
  let row := account_row user (next_apikey w) in
  let entry := credits_row user in
  let after (db : Store) (calls : list Event) :=
    mkWorld db (w_entropy w) (w_cursor w + default_length) (w_log w ++ calls) in
  getAppStateFromDb client user w
  = match accounts_insert client (w_db w) row with
    | (db1, Some _) =>
        (Threw (Error "Error creating account"),
         after db1 [EvSelect id; EvInsert row])
    | (db1, None) =>
        match credits_upsert client db1 entry seed_upsert_options with
        | (db2, Some _) =>
            (Threw (Error "Error creating credits"),
             after db2 [EvSelect id; EvInsert row; EvUpsert entry])
        | (db2, None) =>
            (readAppState
               (qr_data (accounts_select_apikey_single client db2 id)),
             after db2 [EvSelect id; EvInsert row; EvUpsert entry; EvSelect id])
        end
    end.
Proof. intros Hread. by rewrite (getAppStateFromDb_creation _ _ _ Hread). Qed.

(** C3, as the code has it: the call throws exactly when the first read
    throws and then the account insert reports an error (any error, a
    conflict on an existing key included: "Error creating account"), or
    the ledger upsert reports one ("Error creating credits"), or the
    re-read throws.  After an insert that reported an error the call has
    thrown at once: its log ends with that insert, so neither the ledger
    upsert nor the re-read was issued, and the store is the one the
    refused insert left. *)
Theorem getAppStateFromDb_throws_iff (user : User) (w : World Store) (e : Exn) :
  (fst (getAppStateFromDb client user w) = Threw e
   <->
   (exists e0, fst (getAppStateForUser client user w) = Threw e0)
   /\ let row := account_row user (next_apikey w) in
      ((exists db1 err,
           accounts_insert client (w_db w) row = (db1, Some err)
           /\ e = Error "Error creating account")
       \/ (exists db1 db2 err,
           accounts_insert client (w_db w) row = (db1, None)
           /\ credits_upsert client db1 (credits_row user) seed_upsert_options
              = (db2, Some err)
           /\ e = Error "Error creating credits")
       \/ (exists db1 db2,
           accounts_insert client (w_db w) row = (db1, None)
           /\ credits_upsert client db1 (credits_row user) seed_upsert_options
              = (db2, None)
           /\ readAppState
                (qr_data (accounts_select_apikey_single client db2 (user_id user)))
              = Threw e)))
  /\ (forall e0 db1 err,
        fst (getAppStateForUser client user w) = Threw e0 ->
        accounts_insert client (w_db w) (account_row user (next_apikey w))
        = (db1, Some err) ->
        getAppStateFromDb client user w
        = (Threw (Error "Error creating account"),
           mkWorld db1 (w_entropy w) (w_cursor w + default_length)
             (w_log w ++ [EvSelect (user_id user);
                          EvInsert (account_row user (next_apikey w))]))).
Proof.
  split.
  2: { intros e0 db1 err Hread Hins.
       rewrite (getAppStateFromDb_creation _ _ _ Hread). cbv zeta.
       by rewrite Hins. }
  destruct (first_read_cases user w) as [[st Hread]|[e0 Hread]].
  - rewrite (getAppStateFromDb_fast _ _ _ Hread). cbn [fst].
    split; [done|]. intros [[e0 He0] _]. congruence.
  - rewrite (getAppStateFromDb_creation _ _ _ Hread). cbv zeta.
    destruct (accounts_insert client (w_db w) (account_row user (next_apikey w)))
      as [db1 [err|]] eqn:Hins.
    + cbn [fst]. split.
      * intros [= <-]. split; [eauto|]. left. eauto.
      * intros [_ [(? & ? & _ & ->)|[(? & ? & ? & [=] & _)|(? & ? & [=] & _)]]].
        done.
    + destruct (credits_upsert client db1 (credits_row user) seed_upsert_options)
        as [db2 [err|]] eqn:Hups.
      * cbn [fst]. split.
        -- intros [= <-]. split; [eauto|]. right; left. eauto 6.
        -- intros [_ [(? & ? & [=] & _)|[(? & ? & ? & [= <-] & Hu & ->)|
                                         (? & ? & [= <-] & Hu & _)]]];
             [done|]. rewrite Hups in Hu. done.
      * cbn [fst]. split.
        -- intros Hre. split; [eauto|]. right; right. eauto.
        -- intros [_ [(? & ? & [=] & _)|[(? & ? & ? & [= <-] & Hu & _)|
                                         (? & ? & [= <-] & Hu & Hre)]]];
             rewrite Hups in Hu; [done|]. by injection Hu as <-.
Qed.

End Orchestrator.

(** ** The orchestrator on the store *)

Section OnTheStore.
Import Supabase.

(** Whatever the table holds, the answer of
    [select("apikey").eq("id", id).single()] is never an array, so line 108
    throws. *)
Lemma single_row_is_no_array (db : Db) (id : string) :
  readAppState (qr_data (select_apikey_single db id))
  = Threw (Error "No account found").
Proof.
  unfold select_apikey_single.
  by destruct (accounts_of id db) as [|row [|row' rows]].
Qed.

(** Nor would the row pass inside an array: [select("apikey")] has not
    asked for [credits], and line 111 throws. *)
Lemma projected_row_has_no_credits (key : string) :
  key <> "" ->
  readAppState (JArr [JObj [("apikey", JStr key)]])
  = Threw (Error "No credits found").
Proof.
  intros Hkey. unfold readAppState. cbn.
  destruct (String.eqb_spec key "") as [->|_]; done.
Qed.

(** What lines 108-116 accept: an array whose first row carries a key and
    an embedded ledger row. *)
Lemma joined_row_is_read (key : string) (cents : Z) :
  key <> "" ->
  readAppState
    (JArr [JObj [("apikey", JStr key);
                 ("credits", JObj [("total_credits_cents", JNum cents)])]])
  = Returned {| apikey := JStr key; credits := JNum cents |}.
Proof.
  intros Hkey. unfold readAppState. cbn.
  destruct (String.eqb_spec key "") as [->|_]; done.
Qed.

Lemma read_always_throws (user : User) (w : World Db) :
  getAppStateForUser client user w
  = (Threw (Error "No account found"), record_event (EvSelect (user_id user)) w).
Proof.
  rewrite getAppStateForUser_run. cbn [accounts_select_apikey_single client].
  by rewrite single_row_is_no_array.
Qed.

(** With this read no call returns a state, whatever the two writes do. *)
Lemma getAppStateFromDb_never_returns
    (cl : StoreClient Db) (user : User) (w : World Db) (st : AppState) :
  accounts_select_apikey_single cl = select_apikey_single ->
  fst (getAppStateFromDb cl user w) <> Returned st.
Proof.
  intros Hsel.
  assert (Hread : fst (getAppStateForUser cl user w)
                  = Threw (Error "No account found")).
  { rewrite getAppStateForUser_run. cbn [fst].
    rewrite Hsel. apply single_row_is_no_array. }
  rewrite (getAppStateFromDb_slow _ _ _ _ Hread), createAccountAndCredits_run.
  cbv zeta.
  destruct (accounts_insert cl _ _) as [db1 [err|]]; [done|].
  destruct (credits_upsert cl _ _ _) as [db2 [err|]]; [done|].
  rewrite getAppStateForUser_run. cbn [fst].
  by rewrite Hsel, single_row_is_no_array.
Qed.

Lemma accounts_of_insert (id : string) (row : AccountRow) (db : Db) :
  accounts_of (acc_id row) db = [] ->
  accounts_of id (fst (insert db row))
  = accounts_of id db ++ (if decide (acc_id row = id) then [row] else []).
Proof.
  intros Hfree. unfold insert. rewrite Hfree. cbn [fst].
  unfold accounts_of. cbn [tbl_accounts]. by rewrite filter_app.
Qed.

(** The ledger upsert with the options the code passes:
    [INSERT ... ON CONFLICT (id) DO NOTHING]. *)
Lemma upsert_seed (db : Db) (row : CreditRow) :
  upsert db row seed_upsert_options
  = match credits_of (cr_id row) db with
    | [] =>
        ({| tbl_accounts := tbl_accounts db; tbl_credits := tbl_credits db ++ [row] |},
         None)
    | _ :: _ => (db, None)
    end.
Proof. reflexivity. Qed.

Lemma credits_of_upsert_new (id : string) (row : CreditRow) (db : Db) :
  credits_of (cr_id row) db = [] ->
  credits_of id (fst (upsert db row seed_upsert_options))
  = credits_of id db ++ (if decide (cr_id row = id) then [row] else []).
Proof.
  intros Hfree. rewrite upsert_seed, Hfree. cbn [fst].
  unfold credits_of. cbn [tbl_credits]. by rewrite filter_app.
Qed.

(** C1 (the code departs from it): for a principal whose account row and
    ledger row both exist, the first read throws, the creation path runs,
    the insert is refused on the existing key and the call throws "Error
    creating account"; the stored pair is not returned. *)
Theorem provisioned_principal_is_refused
    (user : User) (w : World Db) (account : AccountRow) (entry : CreditRow) :
  accounts_of (user_id user) (w_db w) = [account] ->
  credits_of (user_id user) (w_db w) = [entry] ->
  getAppStateFromDb client user w
  = (Threw (Error "Error creating account"),
     mkWorld (w_db w) (w_entropy w) (w_cursor w + default_length)
       (w_log w ++ [EvSelect (user_id user);
                    EvInsert (account_row user (next_apikey w))])).
Proof.
  intros Hacc _.
  assert (Hread := read_always_throws user w).
  rewrite (getAppStateFromDb_slow client user w (Error "No account found"))
    by (by rewrite Hread).
  rewrite createAccountAndCredits_run, next_apikey_record.
  cbn [w_db record_event accounts_insert client]. unfold insert.
  cbn [acc_id account_row]. rewrite Hacc.
  unfold record_event, set_db, draw. cbn [w_db w_entropy w_cursor w_log].
  by rewrite <- app_assoc.
Qed.

(** With the store client as it is, the first call for a principal leaves
    exactly one account row and exactly one ledger row, with balance 1000,
    and then throws "No account found" at the re-read. *)
Lemma first_call_writes_then_throws (user : User) (w : World Db) :
  accounts_of (user_id user) (w_db w) = [] ->
  credits_of (user_id user) (w_db w) = [] ->
  let call := getAppStateFromDb client user w in
  fst call = Threw (Error "No account found")
  /\ accounts_of (user_id user) (w_db (snd call))
     = [account_row user (next_apikey w)]
  /\ credits_of (user_id user) (w_db (snd call)) = [credits_row user]
  /\ balance_of (user_id user) (w_db (snd call)) = Some 1000%Z
  /\ w_log (snd call)
     = w_log w ++ [EvSelect (user_id user);
                   EvInsert (account_row user (next_apikey w));
                   EvUpsert (credits_row user);
                   EvSelect (user_id user)].
Proof.
  intros Hacc Hcr call.
  set (row := account_row user (next_apikey w)).
  assert (Hins : accounts_insert client (w_db w) row
                 = (fst (insert (w_db w) row), None)).
  { cbn [accounts_insert client]. unfold insert. cbn [acc_id row account_row].
    by rewrite Hacc. }
  assert (Hcr1 : credits_of (user_id user) (fst (insert (w_db w) row)) = []).
  { unfold insert. cbn [acc_id row account_row]. by rewrite Hacc. }
  assert (Hups : credits_upsert client (fst (insert (w_db w) row))
                   (credits_row user) seed_upsert_options
                 = (fst (upsert (fst (insert (w_db w) row)) (credits_row user)
                           seed_upsert_options), None)).
  { cbn [credits_upsert client]. rewrite upsert_seed.
    cbn [cr_id credits_row]. by rewrite Hcr1. }
  assert (Hcall := getAppStateFromDb_written client user w _ _ _
                     (f_equal fst (read_always_throws user w)) Hins Hups).
  fold call in Hcall. rewrite Hcall, getAppStateForUser_run.
  cbn [fst snd w_db record_event w_log accounts_select_apikey_single client].
  split; [apply single_row_is_no_array|].
  assert (Hone : credits_of (user_id user)
                   (fst (upsert (fst (insert (w_db w) row)) (credits_row user)
                           seed_upsert_options)) = [credits_row user]).
  { rewrite credits_of_upsert_new by done. rewrite Hcr1.
    cbn [cr_id credits_row]. by rewrite decide_True. }
  repeat split.
  - rewrite upsert_seed. cbn [cr_id credits_row]. rewrite Hcr1.
    cbn [fst]. unfold accounts_of at 1. cbn [tbl_accounts].
    fold (accounts_of (user_id user) (fst (insert (w_db w) row))).
    rewrite accounts_of_insert by (by cbn [acc_id row account_row]).
    rewrite Hacc. cbn [acc_id row account_row]. by rewrite decide_True.
  - exact Hone.
  - unfold balance_of. by rewrite Hone.
  - by rewrite <- app_assoc.
Qed.

(** Both clients read the store. *)
Lemma supabase_reads_the_store : reads_the_store client.
Proof.
  split; [reflexivity|reflexivity| |].
  - intros db id st _. cbn [accounts_select_apikey_single client].
    by rewrite single_row_is_no_array.
  - intros db id st. cbn [accounts_select_apikey_single client].
    by rewrite single_row_is_no_array.
Qed.




(** C6: with the options the code passes, the ledger upsert never reports
    an error; when the principal has an entry the store is left exactly as
    it is (no balance is reassigned), otherwise the row is added at the
    end of the table; and running it a second time changes nothing and
    reports nothing. *)
Theorem ledger_upsert_is_idempotent (db : Db) (row : CreditRow) :
  let once := upsert db row seed_upsert_options in
  snd once = None
  /\ match credits_of (cr_id row) db with
     | [] =>
         fst once
         = {| tbl_accounts := tbl_accounts db; tbl_credits := tbl_credits db ++ [row] |}
     | _ :: _ => fst once = db
     end
  /\ upsert (fst once) row seed_upsert_options = once.
Proof.
  cbv zeta. rewrite (upsert_seed db row).
  destruct (credits_of (cr_id row) db) as [|old rest] eqn:Hold.
  - cbn [fst snd]. repeat split.
    rewrite upsert_seed. unfold credits_of at 1. cbn [tbl_credits].
    rewrite filter_app. fold (credits_of (cr_id row) db). rewrite Hold.
    by rewrite filter_cons_True.
  - cbn [fst snd]. repeat split.
    rewrite upsert_seed. by rewrite Hold.
Qed.

(** Without [ignoreDuplicates] the same call would overwrite the entry. *)
Lemma upsert_without_ignoreDuplicates_reassigns :
  let db := {| tbl_accounts := [];
               tbl_credits := [{| cr_id := "p"; cr_total_credits_cents := 250 |}] |} in
  let options := {| onConflict := "id"; ignoreDuplicates := false |} in
  balance_of "p" (fst (upsert db (credits_row {| user_id := "p"; user_email := None |}) options))
  = Some 1000%Z
  /\ balance_of "p" (fst (upsert db (credits_row {| user_id := "p"; user_email := None |})
                            seed_upsert_options))
     = Some 250%Z.
Proof. split; reflexivity. Qed.

End OnTheStore.

(** ** The handler *)

Section Handler.
Context {Store : Type} (client : StoreClient Store).

Lemma allowed_method_cases (req : Request) :
  method_allowed req = true ->
  req_method req = Some "POST" \/ req_method req = Some "GET".
Proof.
  unfold method_allowed, includes. destruct (req_method req) as [m|]; [|done].
  change (default "" (Some m)) with m. cbn [existsb].
  destruct (String.eqb_spec m "POST") as [->|_]; [by left|].
  destruct (String.eqb_spec m "GET") as [->|_]; [by right|by cbn].
Qed.

Lemma options_not_allowed (req : Request) :
  method_is req "OPTIONS" = true -> method_allowed req = false.
Proof.
  unfold method_is, method_allowed. destruct (req_method req) as [m|]; [|done].
  intros ->%String.eqb_eq. reflexivity.
Qed.

Lemma cors_hands_on (req : Request) :
  method_allowed req = true -> cors req = NextCalled None.
Proof.
  intros Hm. unfold cors.
  destruct (method_is req "OPTIONS") eqn:Hopt; [|done].
  apply options_not_allowed in Hopt. congruence.
Qed.

(** The handler past line 42, for a middleware that called back. *)
Lemma handler_handed_on (fn : Request -> MiddlewareResult) (req : Request)
    (w : World Store) :
  fn req = NextCalled None ->
  handler client fn req w
  = if negb (method_allowed req) then (Returned not_allowed, w)
    else
      match auth_session req, auth_user req with
      | Some _, Some user =>
          if is_get_state req then
            match getAppStateFromDb client user w with
            | (Returned appState, w') =>
                (Returned (json 200 (json_of_appState appState)), w')
            | (Threw _, w') => (Returned server_error, w')
            | (Pending, w') => (Pending, w')
            end
          else if is_post_apikey req then
            (Returned (json 200 (JObj [("apikey", JStr (next_apikey w))])),
             draw default_length w)
          else (Returned not_found, w)
      | _, _ => (Returned not_authenticated, w)
      end.
Proof.
  intros Hfn. unfold handler, bind, runMiddleware. rewrite Hfn.
  unfold ret at 1. fold (method_allowed req).
  destruct (negb (method_allowed req)); [reflexivity|].
  destruct (auth_session req) as [s|]; [|reflexivity].
  destruct (auth_user req) as [user|]; [|reflexivity].
  fold (is_get_state req). fold (is_post_apikey req).
  destruct (is_get_state req).
  - unfold try_catch.
    destruct (getAppStateFromDb client user w) as [[st|e|] w']; reflexivity.
  - destruct (is_post_apikey req); reflexivity.
Qed.

(** C7, as the code has it: a request without a verified principal leaves
    the world as it is (no store call at all); it is answered
    "not_authenticated" when its method is GET or POST, and "not_allowed"
    otherwise, the method being looked at first (a pre-flight OPTIONS
    request is answered by the CORS middleware and the handler's promise
    stays pending). *)
Theorem unauthenticated_request_touches_no_store (req : Request) (w : World Store) :
  authenticated req = false ->
  handler client cors req w
  = (if method_allowed req then Returned not_authenticated
     else if method_is req "OPTIONS" then Pending
     else Returned not_allowed,
     w).
Proof.
  intros Hanon.
  destruct (method_is req "OPTIONS") eqn:Hopt.
  - rewrite (options_not_allowed _ Hopt).
    unfold handler, bind, runMiddleware, cors. by rewrite Hopt.
  - rewrite handler_handed_on by (unfold cors; by rewrite Hopt).
    destruct (method_allowed req); [|reflexivity]. cbn [negb].
    unfold authenticated in Hanon.
    by destruct (auth_session req), (auth_user req).
Qed.

(** C8: an authenticated [POST] with slug [["apikey"]] is answered 200 with
    the key drawn from the next 64 bytes of the random source; the store
    and the log of store calls are as before, and only the position in the
    random source has moved on, by 64. *)
Theorem apikey_request_persists_nothing
    (req : Request) (w : World Store) (s : Session) (user : User) :
  req_method req = Some "POST" ->
  req_slug req = QArray ["apikey"] ->
  auth_session req = Some s ->
  auth_user req = Some user ->
  let answer := handler client cors req w in
  fst answer = Returned (json 200 (JObj [("apikey", JStr (next_apikey w))]))
  /\ w_db (snd answer) = w_db w
  /\ w_log (snd answer) = w_log w
  /\ w_cursor (snd answer) = w_cursor w + 64.
Proof.
  intros Hm Hslug Hs Hu answer. unfold answer.
  assert (Hallowed : method_allowed req = true)
    by (unfold method_allowed; by rewrite Hm).
  rewrite handler_handed_on by (by apply cors_hands_on).
  rewrite Hallowed, Hs, Hu. cbn [negb].
  unfold is_get_state, is_post_apikey, method_is. rewrite Hm, Hslug.
  repeat split.
Qed.

(** C9, as the code has it: of the requests the CORS middleware hands on,
    one whose method is not GET or POST is answered 405 "not_allowed",
    whoever sends it, and a GET or POST without a verified principal is
    answered 401 "not_authenticated", whatever its path; the world is left
    as it is, and the results 405, 401 and 500 differ. *)
Theorem unsupported_request_answer (req : Request) (w : World Store) :
  cors req = NextCalled None ->
  method_allowed req = false \/ authenticated req = false ->
  handler client cors req w
  = (Returned (if method_allowed req then not_authenticated else not_allowed), w)
  /\ res_status not_allowed = 405%Z
  /\ res_status not_authenticated = 401%Z
  /\ res_status server_error = 500%Z
  /\ not_allowed <> not_authenticated
  /\ not_allowed <> server_error.
Proof.
  intros Hcors Hcase. split; [|done].
  rewrite (handler_handed_on _ _ _ Hcors).
  destruct (method_allowed req); [|reflexivity]. cbn [negb].
  destruct Hcase as [|Hanon]; [done|]. unfold authenticated in Hanon.
  by destruct (auth_session req), (auth_user req).
Qed.

End Handler.

(** For a provisioned principal the endpoint answers 500. *)
Lemma provisioned_get_is_server_error :
  fst (handler Supabase.client cors (Sample.request "GET" QUndefined true)
         (Sample.world Sample.provisioned_db))
  = Returned server_error.
Proof. vm_compute. reflexivity. Qed.

(** ** The client context *)

Section Client.
Import AppContext.

Lemma setApikey_frame (apikey : JsValue) (st : ProviderState) (k : string) :
  k <> "apikey" -> appState (setApikey apikey st) !! k = appState st !! k.
Proof. intros Hk. unfold setApikey, setAppState. cbn. by rewrite lookup_insert_ne. Qed.

(** C10: whatever the fetch settles to, [refreshApikey] leaves [credits],
    [stats] and every other property of [appState] but [apikey] as they
    were; the [accountLoading] and [attempts] cells are untouched as
    well. *)
Theorem refreshApikey_changes_only_apikey (fetched : Fetched) (st : ProviderState) :
  let st' := refreshApikey fetched st in
  appState st' !! "credits" = appState st !! "credits"
  /\ appState st' !! "stats" = appState st !! "stats"
  /\ delete "apikey" (appState st') = delete "apikey" (appState st)
  /\ accountLoading st' = accountLoading st
  /\ attempts st' = attempts st.
Proof.
  cbv zeta. unfold refreshApikey.
  destruct fetched as [e|data]; [done|].
  destruct (Js.get data "apikey") as [apikey|e|]; [|done|done].
  cbn [setPromptLoading setApikey setAppState appState accountLoading attempts].
  repeat split.
  - by rewrite lookup_insert_ne.
  - by rewrite lookup_insert_ne.
  - apply delete_insert_eq.
Qed.

(** The new key is the [apikey] the endpoint answered. *)
Lemma refreshApikey_sets_apikey (apikey : JsValue) (fields : list (string * JsValue))
    (st : ProviderState) :
  Js.assoc "apikey" fields = apikey ->
  appState (refreshApikey (FetchResolved (JObj fields)) st) !! "apikey"
  = Some apikey.
Proof. intros <-. unfold refreshApikey. cbn. apply lookup_insert_eq. Qed.

(** From the initial state, with the answer [{ apikey: "ab" }]. *)
Lemma refreshApikey_from_initState :
  let st' := refreshApikey (FetchResolved (JObj [("apikey", JStr "ab")])) initProvider in
  appState st' !! "apikey" = Some (JStr "ab")
  /\ appState st' !! "credits" = Some (JNum 0)
  /\ promptLoading st' = false.
Proof. cbv zeta. repeat split; vm_compute; reflexivity. Qed.

End Client.

(** ** The theorems at sample inputs *)

Section AtSamples.
Import Sample.

Lemma creation_path_rereads_after_writes_witness :
  let w := world empty_db in
  let row := account_row alice (next_apikey w) in
  fst (getAppStateForUser Joined.client alice w)
  = Threw (TypeError "Cannot read properties of undefined")
  /\ getAppStateFromDb Joined.client alice w
     = (Returned {| apikey := JStr (next_apikey w); credits := JNum 1000 |},
        mkWorld
          {| Supabase.tbl_accounts := [row];
             Supabase.tbl_credits := [credits_row alice] |}
          entropy 64
          [EvSelect "alice"; EvInsert row; EvUpsert (credits_row alice);
           EvSelect "alice"]).
Proof.
  intros w row. split; [reflexivity|].
  exact (creation_path_rereads_after_writes Joined.client alice w
           (TypeError "Cannot read properties of undefined") eq_refl).
Defined.

(** C2 as stated fails: the account row is there without its ledger row,
    the first read throws and the creation path is entered, the insert is
    refused, and the call ends on "Error creating account" with one
    [select] in its log, the one before the insert: nothing is re-read. *)
Lemma creation_path_without_reread :
  let w := world account_only_db in
  let call := getAppStateFromDb Supabase.client alice w in
  fst (getAppStateForUser Supabase.client alice w) = Threw (Error "No account found")
  /\ fst call = Threw (Error "Error creating account")
  /\ w_log (snd call)
     = [EvSelect "alice"; EvInsert (account_row alice (next_apikey w))]
  /\ ~ (exists st, fst call = Returned st).
Proof.
  cbv zeta. repeat split; try (vm_compute; reflexivity).
  intros [st Hst]. vm_compute in Hst. discriminate Hst.
Qed.

Lemma getAppStateFromDb_throws_iff_witness :
  let w := world account_only_db in
  let row := account_row alice (next_apikey w) in
  fst (getAppStateForUser Supabase.client alice w) = Threw (Error "No account found")
  /\ accounts_insert Supabase.client account_only_db row
     = (account_only_db, Some {| pg_code := "23505" |})
  /\ getAppStateFromDb Supabase.client alice w
     = (Threw (Error "Error creating account"),
        mkWorld account_only_db entropy 64 [EvSelect "alice"; EvInsert row]).
Proof.
  intros w row. split; [reflexivity|]. split; [reflexivity|].
  exact (proj2 (getAppStateFromDb_throws_iff Supabase.client alice w
                  (Error "Error creating account"))
           (Error "No account found") account_only_db {| pg_code := "23505" |}
           eq_refl eq_refl).
Defined.

(** C3 as stated fails: the insert reports the conflict on the existing
    key ("23505") and the call throws "Error creating account"; the ledger
    step is not reached (no [upsert] in the log, no ledger row after the
    call) and nothing is re-read. *)
Lemma account_conflict_is_surfaced :
  let w := world account_only_db in
  let call := getAppStateFromDb Supabase.client alice w in
  snd (accounts_insert Supabase.client (w_db w) (account_row alice (next_apikey w)))
  = Some {| pg_code := "23505" |}
  /\ fst call = Threw (Error "Error creating account")
  /\ filter (fun ev => is_write ev = true) (w_log (snd call))
     = [EvInsert (account_row alice (next_apikey w))]
  /\ Supabase.credits_of "alice" (w_db (snd call)) = [].
Proof. cbv zeta. repeat split; vm_compute; reflexivity. Qed.

Lemma provisioned_principal_is_refused_witness :
  Supabase.accounts_of "alice" provisioned_db = [alice_account]
  /\ Supabase.credits_of "alice" provisioned_db = [alice_credits]
  /\ getAppStateFromDb Supabase.client alice (world provisioned_db)
     = (Threw (Error "Error creating account"),
        mkWorld provisioned_db entropy 64
          [EvSelect "alice";
           EvInsert (account_row alice (next_apikey (world provisioned_db)))]).
Proof.
  split; [reflexivity|]. split; [reflexivity|].
  apply (provisioned_principal_is_refused alice (world provisioned_db)
           alice_account alice_credits); reflexivity.
Defined.

Lemma first_call_writes_then_throws_witness :
  let call := getAppStateFromDb Supabase.client alice (world empty_db) in
  Supabase.accounts_of "alice" empty_db = []
  /\ Supabase.credits_of "alice" empty_db = []
  /\ fst call = Threw (Error "No account found")
  /\ Supabase.accounts_of "alice" (w_db (snd call))
     = [account_row alice (next_apikey (world empty_db))]
  /\ Supabase.credits_of "alice" (w_db (snd call)) = [credits_row alice]
  /\ Supabase.balance_of "alice" (w_db (snd call)) = Some 1000%Z
  /\ w_log (snd call)
     = [EvSelect "alice";
        EvInsert (account_row alice (next_apikey (world empty_db)));
        EvUpsert (credits_row alice); EvSelect "alice"].
Proof.
  intros call. split; [reflexivity|]. split; [reflexivity|].
  apply (first_call_writes_then_throws alice (world empty_db)); reflexivity.
Defined.


Lemma generateApiKey_lowercase_hex_witness :
  let w := world empty_db in
  (0 <= 4)%Z /\ (2 * 4 <= MAX_STRING_LENGTH)%Z
  /\ exists bytes : list byte,
      bytes = map entropy (seq 0 4)
      /\ Z.of_nat (List.length bytes) = 4%Z
      /\ generateApiKey 4 w = (Returned (Hex.encode bytes), draw 4 w)
      /\ Hex.decode (Hex.encode bytes) = Some bytes
      /\ Z.of_nat (String.length (Hex.encode bytes)) = 8%Z
      /\ Hex.all_chars Hex.is_lower_hex (Hex.encode bytes) = true.
Proof.
  intros w. split; [by vm_compute|]. split; [by vm_compute|].
  apply (proj1 (generateApiKey_lowercase_hex 4 w)); by vm_compute.
Defined.

(** C5 as stated fails: a negative length is refused with a [RangeError],
    and for 2 ** 28 bytes the string would be too long; neither call
    returns a key. *)
Lemma generateApiKey_refuses_lengths :
  generateApiKey (-1) (world empty_db)
  = (Threw (RangeError "ERR_OUT_OF_RANGE"), world empty_db)
  /\ fst (generateApiKey 268435456 (world empty_db))
     = Threw (Error "ERR_STRING_TOO_LONG").
Proof.
  split; [reflexivity|].
  by rewrite generateApiKey_too_long by (by vm_compute).
Qed.

Lemma unauthenticated_request_touches_no_store_witness :
  authenticated (request "GET" QUndefined false) = false
  /\ handler Supabase.client cors (request "GET" QUndefined false)
       (world provisioned_db)
     = (Returned not_authenticated, world provisioned_db).
Proof.
  split; [reflexivity|].
  apply (unauthenticated_request_touches_no_store Supabase.client
           (request "GET" QUndefined false) (world provisioned_db)).
  reflexivity.
Defined.

(** C7 as stated fails: a [DELETE] without a session is answered
    "not_allowed", not "not_authenticated". *)
Lemma unauthenticated_delete_is_not_allowed :
  authenticated (request "DELETE" QUndefined false) = false
  /\ fst (handler Supabase.client cors (request "DELETE" QUndefined false)
            (world provisioned_db))
     = Returned not_allowed
  /\ not_allowed <> not_authenticated.
Proof. repeat split; try (vm_compute; reflexivity); discriminate. Qed.

Lemma apikey_request_persists_nothing_witness :
  let req := request "POST" (QArray ["apikey"]) true in
  let w := world provisioned_db in
  let answer := handler Supabase.client cors req w in
  fst answer = Returned (json 200 (JObj [("apikey", JStr (next_apikey w))]))
  /\ w_db (snd answer) = provisioned_db
  /\ w_log (snd answer) = []
  /\ w_cursor (snd answer) = 64.
Proof.
  intros req w answer.
  apply (apikey_request_persists_nothing Supabase.client req w session alice);
    reflexivity.
Defined.

Lemma unsupported_request_answer_witness :
  let req := request "DELETE" (QArray ["unknown"]) true in
  cors req = NextCalled None
  /\ method_allowed req = false
  /\ handler Supabase.client cors req (world provisioned_db)
     = (Returned not_allowed, world provisioned_db).
Proof.
  intros req. split; [reflexivity|]. split; [reflexivity|].
  apply (unsupported_request_answer Supabase.client req (world provisioned_db));
    [reflexivity|left; reflexivity].
Defined.

(** C9 as stated fails: a [GET] with slug [["unknown"]] matches no
    operation, and without a session it is answered "not_authenticated",
    the result of the unauthenticated, not 404 or 405. *)
Lemma unsupported_path_without_session :
  let req := request "GET" (QArray ["unknown"]) false in
  is_get_state req = false
  /\ is_post_apikey req = false
  /\ fst (handler Supabase.client cors req (world provisioned_db))
     = Returned not_authenticated
  /\ not_authenticated <> not_found
  /\ not_authenticated <> not_allowed.
Proof. cbv zeta. repeat split; try (vm_compute; reflexivity); discriminate. Qed.

End AtSamples.

(** * Further properties of the endpoint *)

(** ** [generateApiKey]: successive keys *)

Lemma hex_encode_app (a b : list byte) :
  Hex.encode (a ++ b) = String.append (Hex.encode a) (Hex.encode b).
Proof.
  induction a as [|x a IH]; [reflexivity|].
  cbn [app Hex.encode String.append]. by rewrite IH.
Qed.

Lemma generateApiKey_returned {Store} (length : Z) (w : World Store) (key : string) :
  fst (generateApiKey length w) = Returned key ->
  key = Hex.encode (map (w_entropy w) (seq (w_cursor w) (Z.to_nat length))).
Proof.
  destruct (decide (length < 0 \/ kMaxLength < length)%Z) as [Hout|Hin].
  { by rewrite generateApiKey_out_of_range. }
  destruct (decide (MAX_STRING_LENGTH < 2 * length)%Z) as [Hlong|Hfits].
  { rewrite generateApiKey_too_long by lia. done. }
  rewrite generateApiKey_in_range by lia. cbn [fst]. by intros [= <-].
Qed.

(** Two keys that are returned for the same length are the same exactly
    when the bytes drawn for them are: the encoding loses nothing. *)
Theorem generateApiKey_same_key_iff {Store}
    (length : Z) (w1 w2 : World Store) (key1 key2 : string) :
  fst (generateApiKey length w1) = Returned key1 ->
  fst (generateApiKey length w2) = Returned key2 ->
  key1 = key2
  <-> map (w_entropy w1) (seq (w_cursor w1) (Z.to_nat length))
      = map (w_entropy w2) (seq (w_cursor w2) (Z.to_nat length)).
Proof.
  intros ->%generateApiKey_returned ->%generateApiKey_returned. split.
  - intros Hkey. apply (f_equal Hex.decode) in Hkey.
    rewrite !hex_decode_encode in Hkey. by injection Hkey.
  - by intros ->.
Qed.

(** Two calls in a row return the two halves of the key one call for both
    lengths returns, and leave the same world: consecutive draws neither
    overlap nor skip a byte.  This is for lengths whose joint key still
    fits a string; beyond that the one call throws where the two may
    not. *)
Theorem generateApiKey_twice {Store} (n1 n2 : Z) (w : World Store) :
  (0 <= n1)%Z -> (0 <= n2)%Z ->
  (2 * (n1 + n2) <= MAX_STRING_LENGTH)%Z ->
  generateApiKey (n1 + n2) w
  = (let! key1 := generateApiKey n1 in
     let! key2 := generateApiKey n2 in
     ret (String.append key1 key2)) w.
Proof.
  intros H1 H2 Hfits. unfold bind at 1.
  rewrite (generateApiKey_in_range n1) by lia.
  unfold bind. rewrite (generateApiKey_in_range n2) by lia.
  rewrite generateApiKey_in_range by lia.
  unfold ret, draw. cbn [w_db w_entropy w_cursor w_log].
  rewrite Z2Nat.inj_add by lia.
  rewrite seq_app, map_app, hex_encode_app.
  by rewrite Nat.add_assoc.
Qed.

(** ** The shape checks of [getAppStateForUser] *)

(** Lines 108-116 end in a [TypeError] exactly when [data] is an array
    whose first element is [undefined] (the empty array) or [null]. *)
Theorem readAppState_type_error_iff (data : JsValue) :
  (exists msg, readAppState data = Threw (TypeError msg))
  <-> exists items, data = JArr items
                    /\ (Js.first items = JUndefined \/ Js.first items = JNull).
Proof.
  split.
  - intros [msg Hthrow]. destruct data as [| | | | |items|]; try done.
    exists items. split; [done|]. unfold readAppState in Hthrow.
    destruct (Js.first items) as [| |b|n|s|xs|fields]; try (by auto);
      cbn [Js.get obind Js.truthy negb] in Hthrow; try done.
    destruct (negb (Js.truthy (Js.assoc "apikey" fields))); [done|].
    destruct (Js.get (Js.assoc "credits" fields) "total_credits_cents")
      as [t|e|] eqn:Hcents;
      destruct (Js.assoc "credits" fields); cbn in Hthrow, Hcents; try done;
      repeat match type of Hthrow with
             | (if ?c then _ else _) = _ => destruct c
             end; try done.
  - intros (items & -> & [Hrow|Hrow]); unfold readAppState; rewrite Hrow;
      eexists; reflexivity.
Qed.

(** A state that is returned carries a key that is truthy: never [""],
    [null] or [undefined]. *)
Theorem readAppState_key_is_truthy (data : JsValue) (st : AppState) :
  readAppState data = Returned st -> Js.truthy (apikey st) = true.
Proof.
  destruct data as [| | | | |items|]; try done. unfold readAppState.
  destruct (Js.get (Js.first items) "apikey") as [a| |]; try done.
  cbn [obind]. destruct (Js.truthy a) eqn:Ha; [|done]. cbn [negb].
  destruct (Js.get (Js.first items) "credits") as [c| |]; try done.
  cbn [obind]. destruct (Js.isArray c || negb (Js.truthy c)); [done|].
  destruct (Js.get c "total_credits_cents") as [t| |]; try done.
  cbn [obind]. by intros [= <-].
Qed.

(** The balance is not checked: a row whose [credits] is a number other
    than 0 passes both checks and the state has no balance. *)
Theorem readAppState_accepts_number_as_credits (key : string) (n : Z) (rest : list JsValue) :
  key <> "" -> n <> 0%Z ->
  readAppState (JArr (JObj [("apikey", JStr key); ("credits", JNum n)] :: rest))
  = Returned {| apikey := JStr key; credits := JUndefined |}.
Proof.
  intros Hkey Hn. unfold readAppState. cbn.
  destruct (String.eqb_spec key "") as [->|_]; [done|].
  destruct (Z.eqb_spec n 0) as [->|_]; done.
Qed.

(** ** The store calls of [getAppStateFromDb] *)

Section Protocol.
Context {Store : Type} (client : StoreClient Store).

Lemma getAppStateFromDb_settles (user : User) (w : World Store) :
  fst (getAppStateFromDb client user w) <> Pending.
Proof.
  destruct (first_read_cases client user w) as [[st Hread]|[e Hread]].
  - by rewrite (getAppStateFromDb_fast _ _ _ _ Hread).
  - rewrite (getAppStateFromDb_slow _ _ _ _ Hread), createAccountAndCredits_run.
    cbv zeta.
    destruct (accounts_insert client _ _) as [db1 [err|]]; [done|].
    destruct (credits_upsert client _ _ _) as [db2 [err|]]; [done|].
    rewrite getAppStateForUser_run. apply readAppState_settles.
Qed.

(** Whatever the store client answers, one call makes one of four
    sequences of store calls, decided by what the read and the two writes
    report: [select] when the first read returns; [select, insert] when
    the insert reports an error; [select, insert, upsert] when the insert
    reports none and the upsert does; [select, insert, upsert, select]
    when neither does.  So a call never writes before it has read, upserts
    the ledger only after an insert that reported no error, and draws its
    64 random bytes only when it goes on to insert. *)
Theorem getAppStateFromDb_store_calls (user : User) (w : World Store) :
  let call := getAppStateFromDb client user w in
  let id := user_id user in
  let row := account_row user (next_apikey w) in
  let entry := credits_row user in
  (* the first read returned *)
  ((exists st, fst (getAppStateForUser client user w) = Returned st
               /\ fst call = Returned st)
   /\ w_log (snd call) = w_log w ++ [EvSelect id]
   /\ w_db (snd call) = w_db w
   /\ w_cursor (snd call) = w_cursor w)
  (* the insert reported an error *)
  \/ ((exists e, fst (getAppStateForUser client user w) = Threw e)
      /\ (exists err, accounts_insert client (w_db w) row = (w_db (snd call), Some err))
      /\ fst call = Threw (Error "Error creating account")
      /\ w_log (snd call) = w_log w ++ [EvSelect id; EvInsert row]
      /\ w_cursor (snd call) = w_cursor w + 64)
  (* the upsert reported an error *)
  \/ ((exists e, fst (getAppStateForUser client user w) = Threw e)
      /\ (exists db1 err,
            accounts_insert client (w_db w) row = (db1, None)
            /\ credits_upsert client db1 entry seed_upsert_options
               = (w_db (snd call), Some err))
      /\ fst call = Threw (Error "Error creating credits")
      /\ w_log (snd call) = w_log w ++ [EvSelect id; EvInsert row; EvUpsert entry]
      /\ w_cursor (snd call) = w_cursor w + 64)
  (* both writes went through *)
  \/ ((exists e, fst (getAppStateForUser client user w) = Threw e)
      /\ (exists db1,
            accounts_insert client (w_db w) row = (db1, None)
            /\ credits_upsert client db1 entry seed_upsert_options
               = (w_db (snd call), None))
      /\ fst call
         = readAppState
             (qr_data (accounts_select_apikey_single client (w_db (snd call)) id))
      /\ w_log (snd call)
         = w_log w ++ [EvSelect id; EvInsert row; EvUpsert entry; EvSelect id]
      /\ w_cursor (snd call) = w_cursor w + 64).
Proof.
  cbv zeta.
  destruct (first_read_cases client user w) as [[st Hread]|[e Hread]].
  - left. rewrite (getAppStateFromDb_fast _ _ _ _ Hread).
    cbn [fst snd w_db w_log w_cursor record_event].
    split; [by exists st|done].
  - right. rewrite (getAppStateFromDb_creation _ _ _ _ Hread). cbv zeta.
    destruct (accounts_insert client _ _) as [db1 [err|]] eqn:Hins.
    { left. cbn [fst snd w_db w_log w_cursor].
      split; [eauto|]. split; [by exists err|done]. }
    right. destruct (credits_upsert client _ _ _) as [db2 [err|]] eqn:Hups.
    { left. cbn [fst snd w_db w_log w_cursor].
      split; [eauto|]. split; [by exists db1, err|done]. }
    right. cbn [fst snd w_db w_log w_cursor].
    split; [eauto|]. split; [by exists db1|done].
Qed.

End Protocol.

(** ** The handler: answers and effects *)

Section Answers.
Context {Store : Type} (client : StoreClient Store).

Lemma handler_not_handed_on
    (fn : Request -> MiddlewareResult) (req : Request) (w : World Store) :
  fn req <> NextCalled None ->
  handler client fn req w
  = (match fn req with
     | NextCalled (Some e) => Threw e
     | _ => Pending
     end, w).
Proof.
  intros Hfn. unfold handler, bind, runMiddleware.
  by destruct (fn req) as [[e|]|].
Qed.

(** Unless the middleware called back without an error, the handler sends
    nothing and touches nothing: its promise is rejected with the
    middleware's error when the callback was given one, and stays pending
    when the callback was not called. *)
Theorem handler_waits_for_middleware
    (fn : Request -> MiddlewareResult) (req : Request) (w : World Store) :
  fn req <> NextCalled None ->
  snd (handler client fn req w) = w
  /\ (forall res, fst (handler client fn req w) <> Returned res)
  /\ (forall e, fn req = NextCalled (Some e) ->
                fst (handler client fn req w) = Threw e)
  /\ (fn req = NextNotCalled -> fst (handler client fn req w) = Pending).
Proof.
  intros Hfn. rewrite (handler_not_handed_on _ _ _ Hfn). cbn [fst snd].
  destruct (fn req) as [[e|]|]; repeat split; try done.
  by intros e' [= ->].
Qed.

Lemma handler_answer_cases
    (fn : Request -> MiddlewareResult) (req : Request) (w : World Store) :
  fn req = NextCalled None ->
  exists res,
    fst (handler client fn req w) = Returned res
    /\ (res = not_allowed
        \/ res = not_authenticated
        \/ res = not_found
        \/ res = server_error
        \/ res = json 200 (JObj [("apikey", JStr (next_apikey w))])
        \/ exists appState, res = json 200 (json_of_appState appState)).
Proof.
  intros Hfn. rewrite (handler_handed_on _ _ _ _ Hfn).
  destruct (negb (method_allowed req)); [eauto|].
  destruct (auth_session req); [|eauto 6].
  destruct (auth_user req) as [user|]; [|eauto 6].
  destruct (is_get_state req).
  - destruct (getAppStateFromDb client user w) as [[st|e|] w'] eqn:Hcall;
      [eauto 10|eauto 10|].
    by destruct (getAppStateFromDb_settles client user w); rewrite Hcall.
  - destruct (is_post_apikey req); eauto 10.
Qed.

(** Once the middleware has handed the request on, the handler's promise
    always resolves, with one of six results.  All but one of them have
    been sent: for an authenticated GET or POST that is neither of the two
    operations, and only then, the status is set to 404 and nothing is
    sent.  And on [GET] without slug every failure of [getAppStateFromDb],
    whatever the error, becomes the one 500 body. *)
Theorem handler_always_settles
    (fn : Request -> MiddlewareResult) (req : Request) (w : World Store) :
  fn req = NextCalled None ->
  exists res,
    fst (handler client fn req w) = Returned res
    /\ (res = not_allowed
        \/ res = not_authenticated
        \/ res = not_found
        \/ res = server_error
        \/ res = json 200 (JObj [("apikey", JStr (next_apikey w))])
        \/ exists appState, res = json 200 (json_of_appState appState))
    /\ (res_body res = None
        <-> method_allowed req = true /\ authenticated req = true
            /\ is_get_state req = false /\ is_post_apikey req = false)
    /\ (forall user e,
          method_allowed req = true ->
          authenticated req = true ->
          auth_user req = Some user ->
          is_get_state req = true ->
          fst (getAppStateFromDb client user w) = Threw e ->
          res = server_error).
Proof.
  intros Hfn. rewrite (handler_handed_on _ _ _ _ Hfn). unfold authenticated.
  destruct (method_allowed req).
  2: { exists not_allowed. split; [reflexivity|]. split; [by left|].
       split; [|done]. split; [done|]. by intros (? & _). }
  cbn [negb].
  destruct (auth_session req).
  2: { exists not_authenticated. split; [reflexivity|].
       split; [by right; left|]. split; [|done].
       split; [done|]. by intros (_ & ? & _). }
  destruct (auth_user req) as [user|].
  2: { exists not_authenticated. split; [reflexivity|].
       split; [by right; left|]. split; [|done].
       split; [done|]. by intros (_ & ? & _). }
  destruct (is_get_state req).
  - destruct (getAppStateFromDb client user w) as [[st|e|] w'] eqn:Hcall.
    + exists (json 200 (json_of_appState st)). split; [reflexivity|].
      split; [do 5 right; by exists st|]. split.
      * split; [done|]. by intros (_ & _ & ? & _).
      * intros u e _ _ [= <-] _ He. by rewrite Hcall in He.
    + exists server_error. split; [reflexivity|].
      split; [by do 3 right; left|]. split; [|done].
      split; [done|]. by intros (_ & _ & ? & _).
    + by destruct (getAppStateFromDb_settles client user w); rewrite Hcall.
  - destruct (is_post_apikey req).
    + exists (json 200 (JObj [("apikey", JStr (next_apikey w))])).
      split; [reflexivity|]. split; [by do 4 right; left|]. split; [|done].
      split; [done|]. by intros (_ & _ & _ & ?).
    + exists not_found. split; [reflexivity|].
      split; [by do 2 right; left|]. split; [|done]. done.
Qed.

(** Only [GET] without slug reaches the store: for every other request,
    whatever the middleware and the identity provider say, the store and
    the log of store calls are as before. *)
Theorem handler_store_only_for_get_state
    (fn : Request -> MiddlewareResult) (req : Request) (w : World Store) :
  is_get_state req = false ->
  w_db (snd (handler client fn req w)) = w_db w
  /\ w_log (snd (handler client fn req w)) = w_log w.
Proof.
  intros Hget.
  destruct (fn req) as [[e|]|] eqn:Hfn.
  - by rewrite handler_not_handed_on by (by rewrite Hfn).
  - rewrite (handler_handed_on _ _ _ _ Hfn), Hget.
    destruct (negb (method_allowed req)); [done|].
    destruct (auth_session req); [|done].
    destruct (auth_user req); [|done].
    by destruct (is_post_apikey req).
  - by rewrite handler_not_handed_on by (by rewrite Hfn).
Qed.

End Answers.

(** ** What a call leaves in the store *)

Section StoreAfter.
Import Supabase.

(** The store after one call, from the store before it. *)
Lemma getAppStateFromDb_store_after (user : User) (w : World Db) :
  w_db (snd (getAppStateFromDb client user w))
  = match accounts_of (user_id user) (w_db w) with
    | _ :: _ => w_db w
    | [] =>
        {| tbl_accounts :=
             tbl_accounts (w_db w) ++ [account_row user (next_apikey w)];
           tbl_credits :=
             match credits_of (user_id user) (w_db w) with
             | [] => tbl_credits (w_db w) ++ [credits_row user]
             | _ :: _ => tbl_credits (w_db w)
             end |}
    end.
Proof.
  rewrite (getAppStateFromDb_slow client user w (Error "No account found"))
    by (by rewrite read_always_throws).
  rewrite createAccountAndCredits_run, next_apikey_record.
  cbv zeta. cbn [w_db record_event accounts_insert credits_upsert client].
  unfold insert. cbn [acc_id account_row].
  destruct (accounts_of (user_id user) (w_db w)) as [|a rest]; [|reflexivity].
  rewrite upsert_seed. unfold credits_of at 1. cbn [tbl_credits cr_id credits_row].
  fold (credits_of (user_id user) (w_db w)).
  destruct (credits_of (user_id user) (w_db w)) as [|c rest];
    by rewrite getAppStateForUser_run.
Qed.

(** A call never changes or removes a row, of this principal or of any
    other: each table after the call is the table before it, followed by
    at most the one row the call made for its user. *)
Theorem getAppStateFromDb_only_appends (user : User) (w : World Db) :
  let db' := w_db (snd (getAppStateFromDb client user w)) in
  exists new_accounts new_credits,
    tbl_accounts db' = tbl_accounts (w_db w) ++ new_accounts
    /\ tbl_credits db' = tbl_credits (w_db w) ++ new_credits
    /\ (new_accounts = [] \/ new_accounts = [account_row user (next_apikey w)])
    /\ (new_credits = [] \/ new_credits = [credits_row user]).
Proof.
  cbv zeta. rewrite getAppStateFromDb_store_after.
  destruct (accounts_of (user_id user) (w_db w)) as [|a rest].
  - destruct (credits_of (user_id user) (w_db w)) as [|c rest'].
    + exists [account_row user (next_apikey w)], [credits_row user]. auto.
    + exists [account_row user (next_apikey w)], []. cbn [tbl_credits].
      rewrite app_nil_r. auto.
  - exists [], []. rewrite !app_nil_r. auto.
Qed.

(** Once a principal has an account row, every call for it throws "Error
    creating account" and leaves the store as it is: a ledger row that is
    missing is not made up for. *)
Theorem existing_account_is_never_completed (user : User) (w : World Db) :
  accounts_of (user_id user) (w_db w) <> [] ->
  let call := getAppStateFromDb client user w in
  fst call = Threw (Error "Error creating account")
  /\ w_db (snd call) = w_db w
  /\ credits_of (user_id user) (w_db (snd call)) = credits_of (user_id user) (w_db w).
Proof.
  intros Hacc. cbv zeta.
  assert (Hdb := getAppStateFromDb_store_after user w).
  destruct (accounts_of (user_id user) (w_db w)) as [|a rest] eqn:Ha; [done|].
  rewrite Hdb. split; [|done].
  rewrite (getAppStateFromDb_slow client user w (Error "No account found"))
    by (by rewrite read_always_throws).
  rewrite createAccountAndCredits_run, next_apikey_record.
  cbv zeta. cbn [w_db record_event accounts_insert client].
  unfold insert. cbn [acc_id account_row]. by rewrite Ha.
Qed.

(** For a principal with a ledger row and no account row, the call adds
    the account row and leaves the ledger as it is: the balance on record
    is kept, not set back to the seed. *)
Theorem existing_balance_is_kept (user : User) (w : World Db) (balance : Z) :
  accounts_of (user_id user) (w_db w) = [] ->
  balance_of (user_id user) (w_db w) = Some balance ->
  let db' := w_db (snd (getAppStateFromDb client user w)) in
  balance_of (user_id user) db' = Some balance
  /\ tbl_credits db' = tbl_credits (w_db w)
  /\ accounts_of (user_id user) db' = [account_row user (next_apikey w)].
Proof.
  intros Hacc Hbal. cbv zeta. rewrite getAppStateFromDb_store_after, Hacc.
  assert (Hkept : match credits_of (user_id user) (w_db w) with
                  | [] => tbl_credits (w_db w) ++ [credits_row user]
                  | _ :: _ => tbl_credits (w_db w)
                  end = tbl_credits (w_db w)).
  { unfold balance_of in Hbal.
    by destruct (credits_of (user_id user) (w_db w)). }
  rewrite Hkept. split; [|split].
  - unfold balance_of, credits_of in Hbal |- *. by cbn [tbl_credits].
  - reflexivity.
  - unfold accounts_of in Hacc |- *. cbn [tbl_accounts].
    rewrite filter_app, Hacc. cbn [app]. by rewrite filter_cons_True.
Qed.

End StoreAfter.

(** * Further properties of the client context *)

Section ClientState.
Import AppContext.

(** Reading a property of an object and looking it up in the map of its
    properties agree. *)
Lemma assoc_list_to_map (fields : list (string * JsValue)) (k : string) :
  default JUndefined ((list_to_map fields : gmap string JsValue) !! k)
  = Js.assoc k fields.
Proof.
  induction fields as [|[k' v] rest IH]; [by rewrite list_to_map_nil, lookup_empty|].
  rewrite list_to_map_cons. cbn [Js.assoc].
  destruct (String.eqb_spec k k') as [->|Hne].
  - by rewrite lookup_insert_eq.
  - by rewrite lookup_insert_ne.
Qed.

(** [refreshAppState] puts the answer in the place of the state: every
    property then reads as it does in the answer, a property the answer
    does not have is gone (whatever it was before), [accountLoading] ends
    [false] and the other cells are as before.  When the fetch is rejected
    only [accountLoading] is set. *)
Theorem refreshAppState_replaces_state
    (fields : list (string * JsValue)) (e : Exn) (st : ProviderState) :
  (exists st',
      refreshAppState (FetchResolved (JObj fields)) st = Some st'
      /\ (forall k, default JUndefined (appState st' !! k) = Js.assoc k fields)
      /\ (forall k, appState st' !! k = None <-> k ∉ fields.*1)
      /\ accountLoading st' = false
      /\ promptLoading st' = promptLoading st
      /\ attempts st' = attempts st)
  /\ refreshAppState (FetchRejected e) st = Some (setAccountLoading false st).
Proof.
  split; [|reflexivity].
  eexists. split; [reflexivity|]. cbn. repeat split.
  - apply assoc_list_to_map.
  - by intros ?%not_elem_of_list_to_map.
  - by intros ?%not_elem_of_list_to_map.
Qed.

(** The three setters write one property each: applied to different
    properties they commute, and of two writes to [apikey] the later one
    stands. *)
Theorem setters_commute (a a' c s : JsValue) (st : ProviderState) :
  setCredits c (setApikey a st) = setApikey a (setCredits c st)
  /\ setStats s (setApikey a st) = setApikey a (setStats s st)
  /\ setStats s (setCredits c st) = setCredits c (setStats s st)
  /\ setApikey a (setApikey a' st) = setApikey a st.
Proof.
  unfold setCredits, setApikey, setStats, setAppState. cbn.
  repeat split; f_equal.
  - by apply insert_insert_ne.
  - by apply insert_insert_ne.
  - by apply insert_insert_ne.
  - apply insert_insert_eq.
Qed.

Lemma attempt_of_answer_cases (prompt : PromptRequest) (now data : JsValue) :
  (is_nullish data = true
   /\ exists msg, attempt_of_answer prompt now data = Threw (TypeError msg))
  \/ (is_nullish data = false
      /\ exists metrics is_injection output canary_word canary_word_leaked,
        attempt_of_answer prompt now data
        = Returned
            (JObj [("error", JNull);
                   ("timestamp", now);
                   ("input", or_else (userInput prompt) (JStr ""));
                   ("metrics", with_default metrics default_metrics);
                   ("is_injection", with_default is_injection (JBool false));
                   ("output", or_else (with_default output (JStr "")) (JStr ""));
                   ("canary_word", with_default canary_word (JStr ""));
                   ("canary_word_leaked", canary_word_leaked)])).
Proof.
  destruct data; [left|left|right..]; (split; [reflexivity|]);
    unfold attempt_of_answer; cbn [Js.get obind]; eauto 10.
Qed.

(** [submitPrompt] records exactly one attempt and nothing else of the
    state moves: when the answer could be read the attempt made from it
    goes to the end of the list, with [error: null]; when the fetch was
    rejected or the answer was [null] or [undefined] the attempt made from
    the error that was caught goes to the front.  [promptLoading] ends
    [false]. *)
Theorem submitPrompt_records_one_attempt
    (prompt : PromptRequest) (fetched : Fetched) (now : JsValue)
    (st : ProviderState) :
  let st' := submitPrompt prompt fetched now st in
  (exists attempt,
      if answered fetched
      then attempts st' = attempts st ++ [attempt]
           /\ Js.get attempt "error" = Returned JNull
           /\ exists data,
               fetched = FetchResolved data
               /\ attempt_of_answer prompt now data = Returned attempt
      else attempts st' = attempt :: attempts st
           /\ exists e,
               Js.get attempt "error" = Returned (js_error e)
               /\ caught_error fetched = Some e
               /\ attempt = attempt_of_error prompt now e)
  /\ length (attempts st') = S (length (attempts st))
  /\ appState st' = appState st
  /\ accountLoading st' = accountLoading st
  /\ promptLoading st' = false.
Proof.
  cbv zeta. unfold submitPrompt, answered.
  destruct fetched as [e|data].
  - cbn. split; [|by auto]. eexists. split; [reflexivity|]. by exists e.
  - destruct (attempt_of_answer_cases prompt now data)
      as [[Hnull [msg Hthrow]]|[Hnull (m & i & o & c & l & Hanswer)]];
      rewrite Hnull.
    + rewrite Hthrow. cbn [negb setAttempts setPromptLoading attempts].
      split; [|by auto]. eexists. split; [reflexivity|].
      exists (TypeError msg). split; [reflexivity|]. split; [|reflexivity].
      unfold caught_error. unfold attempt_of_answer in Hthrow.
      destruct data; cbn [Js.get obind] in Hthrow |- *; congruence.
    + rewrite Hanswer. cbn [negb setAttempts setPromptLoading attempts].
      split.
      * eexists. split; [reflexivity|]. split; [reflexivity|].
        exists data. by rewrite Hanswer.
      * rewrite length_app. cbn. repeat split. lia.
Qed.

Lemma or_else_empty (v : JsValue) :
  or_else v (JStr "") = JStr "" \/ Js.truthy (or_else v (JStr "")) = true.
Proof. unfold or_else. destruct (Js.truthy v) eqn:Hv; auto. Qed.

Lemma with_default_defined (v d : JsValue) :
  d <> JUndefined -> with_default v d <> JUndefined.
Proof. by destruct v. Qed.

(** In an attempt made from an answer, [input] and [output] are [""] or
    truthy (never [null] or [undefined]), and [metrics], [is_injection] and
    [canary_word] are never [undefined]: what the answer leaves out is
    filled in. *)
Theorem attempt_of_answer_fills_in
    (prompt : PromptRequest) (now data attempt : JsValue) :
  attempt_of_answer prompt now data = Returned attempt ->
  exists input output metrics is_injection canary_word,
    Js.get attempt "input" = Returned input
    /\ (input = JStr "" \/ Js.truthy input = true)
    /\ Js.get attempt "output" = Returned output
    /\ (output = JStr "" \/ Js.truthy output = true)
    /\ Js.get attempt "metrics" = Returned metrics /\ metrics <> JUndefined
    /\ Js.get attempt "is_injection" = Returned is_injection
    /\ is_injection <> JUndefined
    /\ Js.get attempt "canary_word" = Returned canary_word
    /\ canary_word <> JUndefined.
Proof.
  destruct (attempt_of_answer_cases prompt now data)
    as [[_ [msg ->]]|[_ (m & i & o & c & l & ->)]]; [done|].
  intros [= <-]. cbn [Js.get Js.assoc String.eqb Ascii.eqb Bool.eqb].
  do 5 eexists. repeat split; try reflexivity;
    try apply or_else_empty; by apply with_default_defined.
Qed.

End ClientState.

(** ** The client against the endpoint *)

Section EndToEnd.
Import AppContext.
Context {Store : Type} (client : StoreClient Store).

(** [refreshAppState] does not look at the status: when the endpoint
    answers anything but 200, the body of the answer becomes the state,
    which then has an [error] and no [apikey], [credits] or [stats]. *)
Theorem refreshAppState_takes_error_answers
    (fn : Request -> MiddlewareResult) (req : Request) (w : World Store)
    (res : Response) (body : JsValue) (st : ProviderState) :
  fn req = NextCalled None ->
  fst (handler client fn req w) = Returned res ->
  res_status res <> 200%Z ->
  res_body res = Some body ->
  exists st',
    refreshAppState (FetchResolved body) st = Some st'
    /\ appState st' !! "apikey" = None
    /\ appState st' !! "credits" = None
    /\ appState st' !! "stats" = None
    /\ is_Some (appState st' !! "error")
    /\ exists fields, body = JObj fields /\ appState st' = list_to_map fields.
Proof.
  intros Hfn Hres Hstatus Hbody.
  destruct (handler_answer_cases client fn req w Hfn) as (res' & Hres' & Hcases).
  rewrite Hres in Hres'. injection Hres' as <-.
  destruct Hcases as [->|[->|[->|[->|[->|[appState ->]]]]]];
    try done; injection Hbody as <-;
    (eexists; split; [reflexivity|]); cbn; by eauto 10.
Qed.

(** After a rotation the client shows the new key while the store is as it
    was: the key the endpoint answered is put in [appState.apikey] and no
    row has changed. *)
Theorem rotation_reaches_client_only
    (req : Request) (w : World Store) (s : Session) (user : User)
    (st : ProviderState) :
  req_method req = Some "POST" ->
  req_slug req = QArray ["apikey"] ->
  auth_session req = Some s ->
  auth_user req = Some user ->
  let answer := handler client cors req w in
  exists res body,
    fst answer = Returned res
    /\ res_body res = Some body
    /\ appState (refreshApikey (FetchResolved body) st) !! "apikey"
       = Some (JStr (next_apikey w))
    /\ w_db (snd answer) = w_db w.
Proof.
  intros Hm Hslug Hs Hu. cbv zeta.
  assert (Hallowed : method_allowed req = true)
    by (unfold method_allowed; by rewrite Hm).
  rewrite handler_handed_on by (by apply cors_hands_on).
  rewrite Hallowed, Hs, Hu. cbn [negb].
  unfold is_get_state, is_post_apikey, method_is. rewrite Hm, Hslug. cbn.
  do 2 eexists. split; [reflexivity|]. split; [reflexivity|].
  split; [|reflexivity]. apply lookup_insert_eq.
Qed.

End EndToEnd.

(** With the store client as it is, an authenticated [GET] without slug is
    always answered 500, whatever the store holds. *)
Theorem get_state_is_always_server_error (req : Request) (w : World Supabase.Db) :
  is_get_state req = true ->
  authenticated req = true ->
  fst (handler Supabase.client cors req w) = Returned server_error.
Proof.
  intros Hget Hauth.
  assert (Hallowed : method_allowed req = true).
  { unfold is_get_state, method_is in Hget. unfold method_allowed.
    destruct (req_method req) as [m|]; [|done].
    apply andb_prop in Hget as [->%String.eqb_eq _]. reflexivity. }
  rewrite handler_handed_on by (by apply cors_hands_on).
  rewrite Hallowed, Hget. cbn [negb]. unfold authenticated in Hauth.
  destruct (auth_session req); [|done]. destruct (auth_user req) as [user|]; [|done].
  destruct (getAppStateFromDb Supabase.client user w) as [[st|e|] w'] eqn:Hcall;
    [|done|].
  - by destruct (getAppStateFromDb_never_returns Supabase.client user w st);
      [|rewrite Hcall].
  - by destruct (getAppStateFromDb_settles Supabase.client user w); rewrite Hcall.
Qed.

(** ** The further properties at sample inputs *)

Section FurtherSamples.
Import Sample AppContext.

Lemma generateApiKey_same_key_iff_witness :
  let w := world empty_db in
  fst (generateApiKey 2 w) = Returned "0b30"
  /\ ("0b30" = "0b30" <-> map entropy (seq 0 2) = map entropy (seq 0 2)).
Proof.
  intros w. split; [reflexivity|].
  apply (generateApiKey_same_key_iff 2 w w "0b30" "0b30"); reflexivity.
Defined.

Lemma generateApiKey_twice_witness :
  let w := world empty_db in
  (0 <= 2)%Z /\ (0 <= 3)%Z /\ (2 * (2 + 3) <= MAX_STRING_LENGTH)%Z
  /\ generateApiKey (2 + 3) w
     = (let! key1 := generateApiKey 2 in
        let! key2 := generateApiKey 3 in
        ret (String.append key1 key2)) w.
Proof.
  intros w. split; [by vm_compute|]. split; [by vm_compute|].
  split; [by vm_compute|].
  apply (generateApiKey_twice 2 3 w); by vm_compute.
Defined.

Lemma readAppState_key_is_truthy_witness :
  readAppState
    (JArr [JObj [("apikey", JStr "00ff");
                 ("credits", JObj [("total_credits_cents", JNum 1000)])]])
  = Returned {| apikey := JStr "00ff"; credits := JNum 1000 |}
  /\ Js.truthy (JStr "00ff") = true.
Proof.
  split; [reflexivity|].
  apply (readAppState_key_is_truthy
           (JArr [JObj [("apikey", JStr "00ff");
                        ("credits", JObj [("total_credits_cents", JNum 1000)])]])
           {| apikey := JStr "00ff"; credits := JNum 1000 |}).
  reflexivity.
Defined.

Lemma readAppState_accepts_number_as_credits_witness :
  "00ff" <> "" /\ 5%Z <> 0%Z
  /\ readAppState (JArr [JObj [("apikey", JStr "00ff"); ("credits", JNum 5)]])
     = Returned {| apikey := JStr "00ff"; credits := JUndefined |}.
Proof.
  split; [discriminate|]. split; [lia|].
  apply (readAppState_accepts_number_as_credits "00ff" 5 []); [discriminate|lia].
Defined.

Lemma handler_waits_for_middleware_witness :
  let req := request "OPTIONS" QUndefined true in
  let w := world provisioned_db in
  cors req <> NextCalled None
  /\ snd (handler Supabase.client cors req w) = w
  /\ (forall res, fst (handler Supabase.client cors req w) <> Returned res)
  /\ (forall e, cors req = NextCalled (Some e) ->
                fst (handler Supabase.client cors req w) = Threw e)
  /\ (cors req = NextNotCalled ->
      fst (handler Supabase.client cors req w) = Pending).
Proof.
  intros req w. split; [discriminate|].
  apply (handler_waits_for_middleware Supabase.client cors req w). discriminate.
Defined.

Lemma handler_always_settles_witness :
  let req := request "GET" (QArray ["unknown"]) true in
  let w := world provisioned_db in
  cors req = NextCalled None
  /\ exists res,
      fst (handler Supabase.client cors req w) = Returned res
      /\ (res = not_allowed
          \/ res = not_authenticated
          \/ res = not_found
          \/ res = server_error
          \/ res = json 200 (JObj [("apikey", JStr (next_apikey w))])
          \/ exists appState, res = json 200 (json_of_appState appState))
      /\ (res_body res = None
          <-> method_allowed req = true /\ authenticated req = true
              /\ is_get_state req = false /\ is_post_apikey req = false)
      /\ (forall user e,
            method_allowed req = true ->
            authenticated req = true ->
            auth_user req = Some user ->
            is_get_state req = true ->
            fst (getAppStateFromDb Supabase.client user w) = Threw e ->
            res = server_error).
Proof.
  intros req w. split; [reflexivity|].
  apply (handler_always_settles Supabase.client cors req w). reflexivity.
Defined.

Lemma handler_store_only_for_get_state_witness :
  let req := request "POST" (QArray ["apikey"]) true in
  let w := world provisioned_db in
  is_get_state req = false
  /\ w_db (snd (handler Supabase.client cors req w)) = w_db w
  /\ w_log (snd (handler Supabase.client cors req w)) = w_log w.
Proof.
  intros req w. split; [reflexivity|].
  apply (handler_store_only_for_get_state Supabase.client cors req w). reflexivity.
Defined.

Lemma get_state_is_always_server_error_witness :
  let req := request "GET" QUndefined true in
  is_get_state req = true
  /\ authenticated req = true
  /\ fst (handler Supabase.client cors req (world empty_db)) = Returned server_error.
Proof.
  intros req. split; [reflexivity|]. split; [reflexivity|].
  apply (get_state_is_always_server_error req (world empty_db)); reflexivity.
Defined.

Lemma existing_account_is_never_completed_witness :
  let call := getAppStateFromDb Supabase.client alice (world account_only_db) in
  Supabase.accounts_of "alice" account_only_db <> []
  /\ fst call = Threw (Error "Error creating account")
  /\ w_db (snd call) = account_only_db
  /\ Supabase.credits_of "alice" (w_db (snd call)) = [].
Proof.
  intros call. split; [discriminate|].
  apply (existing_account_is_never_completed alice (world account_only_db)).
  discriminate.
Defined.

Lemma existing_balance_is_kept_witness :
  let db' := w_db (snd (getAppStateFromDb Supabase.client alice (world credits_only_db))) in
  Supabase.accounts_of "alice" credits_only_db = []
  /\ Supabase.balance_of "alice" credits_only_db = Some 250%Z
  /\ Supabase.balance_of "alice" db' = Some 250%Z
  /\ Supabase.tbl_credits db' = Supabase.tbl_credits credits_only_db
  /\ Supabase.accounts_of "alice" db'
     = [account_row alice (next_apikey (world credits_only_db))].
Proof.
  intros db'. split; [reflexivity|]. split; [reflexivity|].
  apply (existing_balance_is_kept alice (world credits_only_db) 250); reflexivity.
Defined.

Lemma attempt_of_answer_fills_in_witness :
  let prompt := {| userInput := JUndefined |} in
  let attempt :=
    JObj [("error", JNull); ("timestamp", JNum 0); ("input", JStr "");
          ("metrics", default_metrics); ("is_injection", JBool false);
          ("output", JStr ""); ("canary_word", JStr "");
          ("canary_word_leaked", JUndefined)] in
  attempt_of_answer prompt (JNum 0) (JObj []) = Returned attempt
  /\ exists input output metrics is_injection canary_word,
      Js.get attempt "input" = Returned input
      /\ (input = JStr "" \/ Js.truthy input = true)
      /\ Js.get attempt "output" = Returned output
      /\ (output = JStr "" \/ Js.truthy output = true)
      /\ Js.get attempt "metrics" = Returned metrics /\ metrics <> JUndefined
      /\ Js.get attempt "is_injection" = Returned is_injection
      /\ is_injection <> JUndefined
      /\ Js.get attempt "canary_word" = Returned canary_word
      /\ canary_word <> JUndefined.
Proof.
  intros prompt attempt. split; [reflexivity|].
  apply (attempt_of_answer_fills_in prompt (JNum 0) (JObj []) attempt).
  reflexivity.
Defined.

Lemma refreshAppState_takes_error_answers_witness :
  let req := request "GET" QUndefined false in
  let w := world provisioned_db in
  cors req = NextCalled None
  /\ fst (handler Supabase.client cors req w) = Returned not_authenticated
  /\ res_status not_authenticated <> 200%Z
  /\ res_body not_authenticated
     = Some (error_body "not_authenticated" "not authenticated")
  /\ exists st',
      refreshAppState
        (FetchResolved (error_body "not_authenticated" "not authenticated"))
        initProvider = Some st'
      /\ appState st' !! "apikey" = None
      /\ appState st' !! "credits" = None
      /\ appState st' !! "stats" = None
      /\ is_Some (appState st' !! "error")
      /\ exists fields,
          error_body "not_authenticated" "not authenticated" = JObj fields
          /\ appState st' = list_to_map fields.
Proof.
  intros req w. split; [reflexivity|]. split; [reflexivity|].
  split; [discriminate|]. split; [reflexivity|].
  apply (refreshAppState_takes_error_answers Supabase.client cors req w
           not_authenticated
           (error_body "not_authenticated" "not authenticated") initProvider);
    [reflexivity|reflexivity|discriminate|reflexivity].
Defined.

Lemma rotation_reaches_client_only_witness :
  let req := request "POST" (QArray ["apikey"]) true in
  let w := world provisioned_db in
  let answer := handler Supabase.client cors req w in
  exists res body,
    fst answer = Returned res
    /\ res_body res = Some body
    /\ appState (refreshApikey (FetchResolved body) initProvider) !! "apikey"
       = Some (JStr (next_apikey w))
    /\ w_db (snd answer) = provisioned_db.
Proof.
  intros req w answer.
  apply (rotation_reaches_client_only Supabase.client req w session alice
           initProvider); reflexivity.
Defined.

End FurtherSamples.
